(** * house_price: the model trainer ([src/model_train.py])

    A shallow embedding of the training script: the [Trainer] class, the
    candidate sets, [rm_space] and the driver loop of [__main__].

    - Python values are modelled as the script has them: strings, integers
      ([Z]), IEEE doubles (primitive floats, [np.nan] is [nan]), insertion
      ordered dictionaries, exceptions.
    - pandas tables are an index of row labels plus ordered named columns;
      column assignment aligns a [Series] on the index.
    - Objects that the script mutates in place live in a store: data frames
      ([frames]) and estimators ([estimators]) are referred to by location,
      so that [predict_df = self.X_valid] is an alias and [model.fit]
      updates the object a dictionary entry points to.
    - Third-party code (scikit-learn, xgboost, the numeric casts of numpy) is
      a parameter: the class [Library].  The constants of [src.setting] and
      the classes of [src.data_prep] and [src.predict], which the script
      imports, are parameters or records with the fields the script uses. *)

From Stdlib Require Import ZArith String Ascii List DecimalString DecimalZ DecimalPos Floats.
From stdpp Require Import base option list gmap strings.

Local Open Scope string_scope.
Local Open Scope list_scope.
Local Open Scope Z_scope.

(** ** Python: exceptions, results, a state and exception monad *)

Inductive exn : Type :=
| ValueError
| KeyError
| TypeError
| FileNotFoundError
| RuntimeError.

Inductive result (A : Type) : Type :=
| Ok (a : A)
| Raise (e : exn).
Arguments Ok {A} a.
Arguments Raise {A} e.

(** A computation over a state [S]: the state reached is kept when an
    exception is raised, as the mutations of a Python object are. *)
Definition M (S A : Type) : Type := S -> result A * S.

Definition ret {S A : Type} (a : A) : M S A := fun s => (Ok a, s).

Definition bind {S A B : Type} (c : M S A) (k : A -> M S B) : M S B :=
  fun s => match c s with
           | (Ok a, s') => k a s'
           | (Raise e, s') => (Raise e, s')
           end.

Definition lift_result {S A : Type} (r : result A) : M S A := fun s => (r, s).

Definition gets {S A : Type} (f : S -> A) : M S A := fun s => (Ok (f s), s).

Definition modify {S : Type} (f : S -> S) : M S unit := fun s => (Ok tt, f s).

(** [try: body except E: handler], [catches] telling which exceptions are
    instances of [E]. *)
Definition try_except {S A : Type}
    (body : M S A) (catches : exn -> bool) (handler : M S A) : M S A :=
  fun s => match body s with
           | (Ok a, s') => (Ok a, s')
           | (Raise e, s') => if catches e then handler s' else (Raise e, s')
           end.

Definition is_ValueError (e : exn) : bool :=
  match e with ValueError => true | _ => false end.

Declare Scope py_scope.
Delimit Scope py_scope with py.
Notation "'do' x <- c ; k" := (bind c (fun x => k))
  (at level 10, x name, c at level 100, k at level 200) : py_scope.
Notation "'do' ' p <- c ; k" := (bind c (fun x => match x with p => k end))
  (at level 10, p pattern, c at level 100, k at level 200) : py_scope.
Notation "c ;; k" := (bind c (fun _ => k))
  (at level 100, k at level 200, right associativity) : py_scope.
Local Open Scope py_scope.

(** [for x in l: acc = body x acc], the locals the loop updates being [acc]. *)
Fixpoint for_loop {S A B : Type} (l : list A) (body : A -> B -> M S B) (acc : B)
    : M S B :=
  match l with
  | [] => ret acc
  | x :: l' => do acc' <- body x acc; for_loop l' body acc'
  end.

(** *** Strings *)

(** [str(n)] for an integer. *)
Definition str_int (z : Z) : string := NilZero.string_of_int (Z.to_int z).

Definition lower_ascii (c : ascii) : ascii :=
  let n := nat_of_ascii c in
  if (Nat.leb 65 n && Nat.leb n 90)%bool then ascii_of_nat (n + 32) else c.

Fixpoint map_string (f : ascii -> ascii) (s : string) : string :=
  match s with
  | EmptyString => EmptyString
  | String c s' => String (f c) (map_string f s')
  end.

(** [s.replace(old, new)] for one-character [old] and [new]. *)
Definition str_replace (old new : ascii) (s : string) : string :=
  map_string (fun c => if Ascii.eqb c old then new else c) s.

(** [s.lower()] on the ASCII letters. *)
Definition str_lower (s : string) : string := map_string lower_ascii s.

(** [os.path.join(a, b)] of [posixpath]. *)
Definition ends_with_slash (a : string) : bool :=
  match get (String.length a - 1)%nat a with
  | Some c => Ascii.eqb c "/"
  | None => false
  end.

Definition os_path_join (a b : string) : string :=
  match b with
  | String "/" _ => b
  | _ => if (String.eqb a "" || ends_with_slash a)%bool then a +:+ b
         else a +:+ "/" +:+ b
  end.

(** *** Dictionaries: insertion ordered, one entry per key *)

Definition dict (V : Type) : Type := list (string * V).

Fixpoint dict_get {V : Type} (k : string) (d : dict V) : option V :=
  match d with
  | [] => None
  | (k', v) :: d' => if String.eqb k k' then Some v else dict_get k d'
  end.

(** [d[k] = v]: an existing key keeps its place. *)
Fixpoint dict_set {V : Type} (k : string) (v : V) (d : dict V) : dict V :=
  match d with
  | [] => [(k, v)]
  | (k', v') :: d' =>
      if String.eqb k k' then (k, v) :: d' else (k', v') :: dict_set k v d'
  end.

Definition dict_keys {V : Type} (d : dict V) : list string := map fst d.
Definition dict_values {V : Type} (d : dict V) : list V := map snd d.

(** [dict(zip(names, values))]. *)
Definition dict_zip {V : Type} (names : list string) (values : list V) : dict V :=
  fold_left (fun d kv => dict_set (fst kv) (snd kv) d) (combine names values) [].

(** [d[k]] as an expression. *)
Definition dict_getitem {V : Type} (k : string) (d : dict V) : result V :=
  match dict_get k d with
  | Some v => Ok v
  | None => Raise KeyError
  end.

(** ** pandas: tables *)

Inductive cell : Type :=
| Num (x : float)
| Int (z : Z)
| Str (s : string).

Record Series : Type := mkSeries {
  s_index : list Z;
  s_values : list cell
}.

Record DataFrame : Type := mkDataFrame {
  df_index : list Z;
  df_columns : list (string * list cell)
}.

Definition NaN : cell := Num nan.

Definition nrows (df : DataFrame) : nat := length (df_index df).

Definition column_names (df : DataFrame) : list string := map fst (df_columns df).

Definition column (label : string) (df : DataFrame) : option (list cell) :=
  dict_get label (df_columns df).

(** [RangeIndex(n)]. *)
Definition range_index (n : nat) : list Z := map Z.of_nat (seq 0 n).

(** [df[labels]] for a list of labels. *)
Fixpoint select_columns (cols : list (string * list cell)) (labels : list string)
    : result (list (string * list cell)) :=
  match labels with
  | [] => Ok []
  | l :: labels' =>
      match dict_get l cols with
      | None => Raise KeyError
      | Some c =>
          match select_columns cols labels' with
          | Ok r => Ok ((l, c) :: r)
          | Raise e => Raise e
          end
      end
  end.

Definition getitem_list (df : DataFrame) (labels : list string) : result DataFrame :=
  match select_columns (df_columns df) labels with
  | Ok cols => Ok (mkDataFrame (df_index df) cols)
  | Raise e => Raise e
  end.

(** [df[label]]. *)
Definition getitem (df : DataFrame) (label : string) : result Series :=
  match column label df with
  | Some c => Ok (mkSeries (df_index df) c)
  | None => Raise KeyError
  end.

(** [df.drop(label, axis='columns')]. *)
Definition drop_column (df : DataFrame) (label : string) : result DataFrame :=
  match column label df with
  | None => Raise KeyError
  | Some _ =>
      Ok (mkDataFrame (df_index df)
            (List.filter (fun c => negb (String.eqb (fst c) label)) (df_columns df)))
  end.

Definition zeq_list (a b : list Z) : bool := bool_decide (a = b).

Fixpoint lookup_label (label : Z) (idx : list Z) (vals : list cell) : option cell :=
  match idx, vals with
  | i :: idx', v :: vals' =>
      if Z.eqb label i then Some v else lookup_label label idx' vals'
  | _, _ => None
  end.

(** The values of [s] at the labels [idx], as column assignment aligns
    them: taken as they are when the indexes are equal, looked up by label
    otherwise (a missing label gives NaN, a repeated label in [s] is an
    error). *)
Definition reindex (s : Series) (idx : list Z) : result (list cell) :=
  if zeq_list (s_index s) idx then Ok (s_values s)
  else if bool_decide (NoDup (s_index s)) then
    Ok (map (fun l => default NaN (lookup_label l (s_index s) (s_values s))) idx)
  else Raise ValueError.

(** A frame without rows takes the index of the first values assigned to it. *)
Definition ensure_valid_index (df : DataFrame) (idx : list Z) : DataFrame :=
  match df_index df, idx with
  | [], _ :: _ =>
      mkDataFrame idx
        (map (fun c => (fst c, repeat NaN (length idx))) (df_columns df))
  | _, _ => df
  end.

Definition set_column (df : DataFrame) (label : string) (vals : list cell) : DataFrame :=
  mkDataFrame (df_index df) (dict_set label vals (df_columns df)).

(** [df[label] = s] for a Series. *)
Definition setitem_series (df : DataFrame) (label : string) (s : Series)
    : result DataFrame :=
  let df1 := ensure_valid_index df (s_index s) in
  match reindex s (df_index df1) with
  | Ok vals => Ok (set_column df1 label vals)
  | Raise e => Raise e
  end.

(** [df[label] = a] for an array. *)
Definition setitem_array (df : DataFrame) (label : string) (a : list cell)
    : result DataFrame :=
  let df1 := ensure_valid_index df (range_index (length a)) in
  if Nat.eqb (length a) (nrows df1) then Ok (set_column df1 label a)
  else Raise ValueError.

(** [df[label] = c] for a scalar. *)
Definition setitem_scalar (df : DataFrame) (label : string) (c : cell) : DataFrame :=
  set_column df label (repeat c (nrows df)).

(** [pd.DataFrame({...})] of a dictionary of lists. *)
Definition DataFrame_of_dict (d : dict (list cell)) : result DataFrame :=
  match d with
  | [] => Ok (mkDataFrame [] [])
  | (_, c) :: _ =>
      if forallb (fun kv => Nat.eqb (length (snd kv)) (length c)) d
      then Ok (mkDataFrame (range_index (length c)) d)
      else Raise ValueError
  end.

(** [pd.concat([a, b])]: rows of [a] then rows of [b], over the union of the
    columns in order of appearance, NaN where a frame lacks a column. *)
Definition column_or_nan (label : string) (df : DataFrame) : list cell :=
  default (repeat NaN (nrows df)) (column label df).

Definition concat_labels (a b : DataFrame) : list string :=
  column_names a ++
  List.filter (fun l => negb (existsb (String.eqb l) (column_names a))) (column_names b).

Definition pd_concat (a b : DataFrame) : DataFrame :=
  mkDataFrame (df_index a ++ df_index b)
    (map (fun l => (l, column_or_nan l a ++ column_or_nan l b)) (concat_labels a b)).

(** The rows of a frame, each with its cells in column order. *)
Definition row (i : nat) (df : DataFrame) : list cell :=
  map (fun c => default NaN (snd c !! i)) (df_columns df).

Definition rows (df : DataFrame) : list (list cell) :=
  map (fun i => row i df) (seq 0 (nrows df)).

Definition notnull (c : cell) : bool :=
  match c with
  | Num x => negb (PrimFloat.is_nan x)
  | _ => true
  end.

(** [df[mask]] for a boolean mask. *)
Definition mask_list {A : Type} (mask : list bool) (l : list A) : list A :=
  map snd (List.filter (fun p : bool * A => fst p) (combine mask l)).

Definition getitem_mask (df : DataFrame) (mask : list bool) : DataFrame :=
  mkDataFrame (mask_list mask (df_index df))
    (map (fun c => (fst c, mask_list mask (snd c))) (df_columns df)).

(** ** The imports of the script *)

(** What [bool(x)] is for the values a stratification key can be. *)
Inductive array_like : Type :=
| PyList (l : list cell)
| PdSeries (s : Series).

(** [not x]: [None] and the empty list are false; pandas refuses to give a
    Series a truth value ("The truth value of a Series is ambiguous"). *)
Definition py_not (x : option array_like) : result bool :=
  match x with
  | None => Ok true
  | Some (PyList []) => Ok true
  | Some (PyList (_ :: _)) => Ok false
  | Some (PdSeries _) => Raise ValueError
  end.

Definition split_result : Type := DataFrame * DataFrame * Series * Series.

(** scikit-learn, xgboost and numpy.  [train_test_split X y test_size
    stratify random_state g] runs on the state [g] of numpy's global
    generator. *)
Class Library : Type := {
  regressor : Type;
  rng : Type;
  Ridge : Z -> regressor;
  Lasso : Z -> regressor;
  GradientBoostingRegressor : Z -> Z -> regressor;
  RandomForestRegressor : Z -> Z -> regressor;
  XGBRegressor : Z -> regressor;
  fit : regressor -> DataFrame -> Series -> result regressor;
  predict : regressor -> DataFrame -> result (list float);
  mean_squared_log_error : Series -> list float -> result float;
  train_test_split :
    DataFrame -> Series -> float -> option array_like -> option Z -> rng ->
    result split_result * rng;
  float_of_int : Z -> float
}.

(** [src.data_prep.DataPrep]: the script reads its [features]. *)
Module DataPrep.
Record t : Type := mk { features : list string }.
End DataPrep.

(** [src.predict.Predictor(model, features)]: a fitted estimator bundled
    with the feature list, as it is pickled. *)
Module Predictor.
Record t `{Library} : Type := mk { model : regressor; features : list string }.
End Predictor.

Definition SEED : Z := 1.


Definition rm_space (s : string) : string :=
  str_lower (str_replace " " "_" s).

Section Script.
Context `{L : Library}.
(** The directories of [src.setting]. *)
Variables MODEL_DIR RES_DIR DAT_DIR : string.

(** *** The world the script runs in *)

Inductive file : Type :=
| PredictorPickle (p : Predictor.t)
| DataPrepPickle (d : DataPrep.t)
| Csv (columns : list (string * list cell)).

Record world : Type := mkWorld {
  frames : gmap nat DataFrame;
  estimators : gmap nat regressor;
  files : gmap string file;
  stdout : list string;
  np_random : rng
}.

Definition set_frames (f : gmap nat DataFrame) (w : world) : world :=
  mkWorld f (estimators w) (files w) (stdout w) (np_random w).
Definition set_estimators (e : gmap nat regressor) (w : world) : world :=
  mkWorld (frames w) e (files w) (stdout w) (np_random w).
Definition set_files (f : gmap string file) (w : world) : world :=
  mkWorld (frames w) (estimators w) f (stdout w) (np_random w).
Definition set_stdout (o : list string) (w : world) : world :=
  mkWorld (frames w) (estimators w) (files w) o (np_random w).
Definition set_np_random (g : rng) (w : world) : world :=
  mkWorld (frames w) (estimators w) (files w) (stdout w) g.

Definition print (line : string) : M world unit :=
  modify (fun w => set_stdout (stdout w ++ [line]) w).

(** A new object gets a location no object has. *)
Definition new_frame (df : DataFrame) : M world nat :=
  fun w => let l := fresh (dom (frames w)) in
           (Ok l, set_frames (<[l := df]> (frames w)) w).

Definition new_estimator (m : regressor) : M world nat :=
  fun w => let l := fresh (dom (estimators w)) in
           (Ok l, set_estimators (<[l := m]> (estimators w)) w).

(** A reference always points to an object: [RuntimeError] is for the
    locations no run of the script produces. *)
Definition frame_at (l : nat) : M world DataFrame :=
  fun w => match frames w !! l with
           | Some df => (Ok df, w)
           | None => (Raise RuntimeError, w)
           end.

Definition estimator_at (l : nat) : M world regressor :=
  fun w => match estimators w !! l with
           | Some m => (Ok m, w)
           | None => (Raise RuntimeError, w)
           end.

(** [model.fit(X, y)]: the estimator object is fitted in place. *)
Definition estimator_fit (model X : nat) (y : Series) : M world unit :=
  do m <- estimator_at model;
  do df <- frame_at X;
  do m' <- lift_result (fit m df y);
  modify (fun w => set_estimators (<[model := m']> (estimators w)) w).

Definition estimator_predict (model X : nat) : M world (list float) :=
  do m <- estimator_at model;
  do df <- frame_at X;
  lift_result (predict m df).

(** Column assignment on the frame object at [l]. *)
Definition frame_update (l : nat) (f : DataFrame -> result DataFrame) : M world unit :=
  do df <- frame_at l;
  do df' <- lift_result (f df);
  modify (fun w => set_frames (<[l := df']> (frames w)) w).

(** [joblib.dump(predictor, path)]: the file holds a copy of the object. *)
Definition joblib_dump (model : nat) (features : list string) (path : string)
    : M world unit :=
  do m <- estimator_at model;
  modify (fun w => set_files (<[path := PredictorPickle (Predictor.mk _ m features)]> (files w)) w).

(** [df.to_csv(path, index=False)]. *)
Definition to_csv (l : nat) (path : string) : M world unit :=
  do df <- frame_at l;
  modify (fun w => set_files (<[path := Csv (df_columns df)]> (files w)) w).




(** [a - s] for an array [a] and a Series [s]: element by element, the
    result carrying the index of [s]. *)
Definition cell_rsub (p : float) (c : cell) : result cell :=
  match c with
  | Num y => Ok (Num (PrimFloat.sub p y))
  | Int z => Ok (Num (PrimFloat.sub p (float_of_int z)))
  | Str _ => Raise TypeError
  end.

Fixpoint cells_rsub (a : list float) (v : list cell) : result (list cell) :=
  match a, v with
  | p :: a', c :: v' =>
      match cell_rsub p c with
      | Ok e => match cells_rsub a' v' with
                | Ok r => Ok (e :: r)
                | Raise x => Raise x
                end
      | Raise x => Raise x
      end
  | _, _ => Ok []
  end.

Definition array_sub (a : list float) (s : Series) : result Series :=
  if Nat.eqb (length a) (length (s_values s)) then
    match cells_rsub a (s_values s) with
    | Ok v => Ok (mkSeries (s_index s) v)
    | Raise e => Raise e
    end
  else Raise ValueError.

(** *** The candidate sets *)

Definition set_linear_models : M world (dict nat) :=
  do ridge_reg <- new_estimator (Ridge SEED);
  do lasso_reg <- new_estimator (Lasso SEED);
  let lin_predictors := [lasso_reg; ridge_reg] in
  let lin_names := ["Lasso Regression"; "Ridge Regression"] in
  ret (dict_zip lin_names lin_predictors).

Definition set_tree_models (n_estimators : Z) : M world (dict nat) :=
  do gb_reg <- new_estimator (GradientBoostingRegressor SEED n_estimators);
  do rf_reg <- new_estimator (RandomForestRegressor SEED n_estimators);
  do xgb_reg <- new_estimator (XGBRegressor n_estimators);
  let tree_predictors := [gb_reg; rf_reg; xgb_reg] in
  let tree_names := ["Boosted Regression Tree"; "Random Forest"; "XGBoost"] in
  ret (dict_zip tree_names tree_predictors).

(** *** class Trainer *)

Record Trainer : Type := mkTrainer {
  n_estimator : Z;
  features : list string;
  X_train : nat;
  y_train : Series;
  X_valid : nat;
  y_valid : Series;
  models : dict nat;
  predictions : dict (list float)
}.

Definition set_predictions (p : dict (list float)) (t : Trainer) : Trainer :=
  mkTrainer (n_estimator t) (features t) (X_train t) (y_train t)
            (X_valid t) (y_valid t) (models t) p.

(** A method runs on the object and the world. *)
Definition method (A : Type) : Type := M (Trainer * world) A.

Definition get_self : method Trainer := gets fst.

Definition in_world {A : Type} (c : M world A) : method A :=
  fun s => let (r, w') := c (snd s) in (r, (fst s, w')).

(** Lines 27-31 of [__init__]: the feature columns and the target. *)
Definition select_X_y (train : DataFrame) (features : list string)
    : result (DataFrame * Series) :=
  let cols := features ++ ["SalePrice"] in
  match getitem_list train cols with
  | Raise e => Raise e
  | Ok compact_train =>
      match drop_column compact_train "SalePrice" with
      | Raise e => Raise e
      | Ok X =>
          match getitem compact_train "SalePrice" with
          | Raise e => Raise e
          | Ok y => Ok (X, y)
          end
      end
  end.

Definition call_train_test_split (X : DataFrame) (y : Series) (test_size : float)
    (stratify : option array_like) (random_state : option Z)
    : M world split_result :=
  fun w => let (r, g) := train_test_split X y test_size stratify random_state (np_random w) in
           (r, set_np_random g w).

Definition Trainer_init (train : DataFrame) (validation_ratio : float)
    (preprocess : DataPrep.t) (stratify : option array_like) (n_estimators : Z)
    : M world Trainer :=
  print (String (ascii_of_nat 9) " # estimators = " +:+ str_int n_estimators) ;;
  let features := DataPrep.features preprocess in
  do '(X, y) <- lift_result (select_X_y train features);
  do unstratified <- lift_result (py_not stratify);
  do '(X_train, X_valid, y_train, y_valid) <-
    (if unstratified : bool
     then call_train_test_split X y validation_ratio None (Some SEED)
     else call_train_test_split X y validation_ratio stratify (Some SEED));
  do X_train <- new_frame X_train;
  do X_valid <- new_frame X_valid;
  do lin_models <- set_linear_models;
  do tree_models <- set_tree_models n_estimators;
  ret (mkTrainer n_estimators features X_train y_train X_valid y_valid
                 tree_models []).

Definition Trainer_dump_predictor (model : nat) (name : string) : method unit :=
  do self <- get_self;
  let fname := rm_space name +:+ str_int (n_estimator self) +:+ ".pkl" in
  let predictor_file := os_path_join MODEL_DIR fname in
  in_world (joblib_dump model (features self) predictor_file) ;;
  in_world (print ("dumped trained predictor " +:+ name +:+ " to file " +:+ predictor_file)).

Definition Trainer_eval (model : nat) (name : string) : method float :=
  do self <- get_self;
  in_world (estimator_fit model (X_train self) (y_train self)) ;;
  Trainer_dump_predictor model name ;;
  do y_pred <- in_world (estimator_predict model (X_valid self));
  modify (fun s => (set_predictions (dict_set name y_pred (predictions (fst s))) (fst s), snd s)) ;;
  try_except
    (do error <- lift_result (mean_squared_log_error (y_valid self) y_pred);
     ret error)
    is_ValueError
    (ret nan).

Definition Trainer_retrieve_predictions : method nat :=
  do self <- get_self;
  let predict_df := X_valid self in
  in_world (frame_update predict_df (fun df => setitem_series df "SalePrice" (y_valid self))) ;;
  for_loop (dict_keys (models self))
    (fun model (_ : unit) =>
       do self <- get_self;
       do p <- lift_result (dict_getitem model (predictions self));
       in_world (frame_update predict_df
                   (fun df => setitem_array df ("price_predict_" +:+ model) (map Num p))) ;;
       do p <- lift_result (dict_getitem model (predictions self));
       do df <- in_world (frame_at predict_df);
       do sale_price <- lift_result (getitem df "SalePrice");
       do err <- lift_result (array_sub p sale_price);
       in_world (frame_update predict_df
                   (fun df => setitem_series df (rm_space model +:+ "_error") err)))
    tt ;;
  ret predict_df.

Definition Trainer_benchmark (pred_file : string) : method DataFrame :=
  do self0 <- get_self;
  do errors <-
    for_loop (models self0)
      (fun item (errors : dict float) =>
         do e <- Trainer_eval (snd item) (fst item);
         ret (dict_set (fst item) e errors))
      [];
  do error_df <-
    lift_result (DataFrame_of_dict
                   [("model", map Str (dict_keys errors));
                    ("mean_squared_log_error", map Num (dict_values errors))]);
  do self1 <- get_self;
  let error_df := setitem_scalar error_df "n_estimator" (Int (n_estimator self1)) in
  do predict_df <- Trainer_retrieve_predictions;
  in_world (to_csv predict_df pred_file) ;;
  in_world (print ("dumped predictions to file " +:+ pred_file)) ;;
  ret error_df.

(** *** The driver *)


(** [trainer.benchmark(pred_file)] on a trainer the caller keeps no
    other use of. *)
Definition run_method {A : Type} (t : Trainer) (c : method A) : M world A :=
  fun w => let (r, s) := c (t, w) in (r, snd s).

(** The body of the loop over the ensemble sizes. *)
Definition main_loop (train : DataFrame) (dp : DataPrep.t) (sizes : list Z)
    (error_df : DataFrame) : M world DataFrame :=
  for_loop sizes
    (fun n_estimators error_df =>
       do trainer <- Trainer_init train 0x1.999999999999ap-4%float dp None n_estimators;
       let pred_file := os_path_join RES_DIR (str_int n_estimators +:+ "_est_validation.csv") in
       do e <- run_method trainer (Trainer_benchmark pred_file);
       ret (pd_concat error_df e))
    error_df.


End Script.

Arguments world {L}.

(** ** What a run leaves behind

    The definitions the properties below are stated with: the outcome of
    evaluating one candidate, the state an evaluation, a loop of them and a
    whole benchmark reach, and the tables they produce. *)
Section Specification.
Context `{L : Library}.
Variable MODEL_DIR : string.

(** The names [set_tree_models] configures. *)
Definition tree_names : list string :=
  ["Boosted Regression Tree"; "Random Forest"; "XGBoost"].

(** [try: return metric(...) except ValueError: return np.nan] on the
    result of the metric. *)
Definition caught (r : result float) : result float :=
  match r with
  | Ok e => Ok e
  | Raise e => if is_ValueError e then Ok nan else Raise e
  end.

Definition predictor_file (t : Trainer) (name : string) : string :=
  os_path_join MODEL_DIR (rm_space name +:+ str_int (n_estimator t) +:+ ".pkl").

(** The trainer and the world once [eval] has fitted the estimator at
    [model] to [m'] and got the predictions [p] from it. *)
Definition after_eval (t : Trainer) (w : world) (model : nat) (name : string)
    (m' : regressor) (p : list float) : Trainer * world :=
  (set_predictions (dict_set name p (predictions t)) t,
   set_stdout
     (stdout w ++ ["dumped trained predictor " +:+ name +:+ " to file "
                   +:+ predictor_file t name])
     (set_files
        (<[predictor_file t name := PredictorPickle (Predictor.mk _ m' (features t))]>
           (files w))
        (set_estimators (<[model := m']> (estimators w)) w))).

(** What evaluating one candidate yields: its name and estimator object, the
    fitted estimator, its validation predictions and its error cell. *)
Record outcome : Type := mkOutcome {
  o_name : string;
  o_model : nat;
  o_fitted : regressor;
  o_pred : list float;
  o_error : float
}.

Definition candidate (o : outcome) : string * nat := (o_name o, o_model o).

(** The library calls of one evaluation succeed with the outcome [o]; the
    metric may raise [ValueError]. *)
Definition runs (t : Trainer) (w : world) (Xtr Xv : DataFrame) (o : outcome) : Prop :=
  (exists m, estimators w !! o_model o = Some m
             /\ fit m Xtr (y_train t) = Ok (o_fitted o))
  /\ predict (o_fitted o) Xv = Ok (o_pred o)
  /\ caught (mean_squared_log_error (y_valid t) (o_pred o)) = Ok (o_error o).

Definition eval_step (s : Trainer * world) (o : outcome) : Trainer * world :=
  after_eval (fst s) (snd s) (o_model o) (o_name o) (o_fitted o) (o_pred o).

Definition after_evals (outs : list outcome) (s : Trainer * world) : Trainer * world :=
  fold_left eval_step outs s.

Definition record_error (errors : dict float) (o : outcome) : dict float :=
  dict_set (o_name o) (o_error o) errors.

Definition record_prediction (p : dict (list float)) (o : outcome)
    : dict (list float) :=
  dict_set (o_name o) (o_pred o) p.

Definition fit_object (e : gmap nat regressor) (o : outcome) : gmap nat regressor :=
  <[o_model o := o_fitted o]> e.

Definition dump_file (t : Trainer) (f : gmap string file) (o : outcome)
    : gmap string file :=
  <[predictor_file t (o_name o) :=
      PredictorPickle (Predictor.mk _ (o_fitted o) (features t))]> f.

Definition dump_line (t : Trainer) (out : list string) (o : outcome) : list string :=
  out ++ ["dumped trained predictor " +:+ o_name o +:+ " to file "
          +:+ predictor_file t (o_name o)].

(** The frame object at [l] replaced by [df]. *)
Definition store_frame (l : nat) (df : DataFrame) (w : world) : world :=
  set_frames (<[l := df]> (frames w)) w.

(** The two columns [retrieve_predictions] writes for a candidate. *)
Definition prediction_label (name : string) : string := "price_predict_" +:+ name.
Definition error_label (name : string) : string := rm_space name +:+ "_error".

Definition candidate_labels (outs : list outcome) : list string :=
  flat_map (fun o => [prediction_label (o_name o); error_label (o_name o)]) outs.

Definition numeric (c : cell) : Prop :=
  match c with Str _ => False | _ => True end.

Definition residuals (p : list float) (y : list cell) : list cell :=
  match cells_rsub p y with Ok r => r | Raise _ => [] end.

Definition add_prediction (y : list cell) (df : DataFrame) (o : outcome) : DataFrame :=
  set_column
    (set_column df (prediction_label (o_name o)) (map Num (o_pred o)))
    (error_label (o_name o)) (residuals (o_pred o) y).

(** The validation frame [Xv] once [retrieve_predictions] has augmented it. *)
Definition prediction_table (t : Trainer) (Xv : DataFrame) (outs : list outcome)
    : DataFrame :=
  fold_left (add_prediction (s_values (y_valid t))) outs
    (set_column Xv "SalePrice" (s_values (y_valid t))).

Definition recorded (t : Trainer) (n : nat) (o : outcome) : Prop :=
  dict_get (o_name o) (predictions t) = Some (o_pred o) /\ length (o_pred o) = n.

(** A trainer ready to benchmark: its two tables are in the store, its
    candidates are distinct objects under distinct names, each of them
    fits, predicts one value per validation row and scores, and the
    validation target is numeric and row-aligned with the validation
    frame. *)
Record ready (t : Trainer) (w : world) (Xtr Xv : DataFrame) (outs : list outcome)
    : Prop := {
  ready_train : frames w !! X_train t = Some Xtr;
  ready_valid : frames w !! X_valid t = Some Xv;
  ready_models : models t = map candidate outs;
  ready_names : NoDup (map o_name outs);
  ready_objects : NoDup (map o_model outs);
  ready_runs : Forall (runs t w Xtr Xv) outs;
  ready_index : s_index (y_valid t) = df_index Xv;
  ready_target : length (s_values (y_valid t)) = nrows Xv;
  ready_numeric : Forall numeric (s_values (y_valid t));
  ready_lengths : Forall (fun o => length (o_pred o) = nrows Xv) outs
}.

(** The row of the error table for an outcome of a run of size [n]. *)
Definition error_row (n : Z) (o : outcome) : list cell :=
  [Str (o_name o); Num (o_error o); Int n].

Definition error_table (t : Trainer) (outs : list outcome) : DataFrame :=
  mkDataFrame (range_index (length outs))
    [("model", map (fun o => Str (o_name o)) outs);
     ("mean_squared_log_error", map (fun o => Num (o_error o)) outs);
     ("n_estimator", repeat (Int (n_estimator t)) (length outs))].

Definition after_benchmark (t : Trainer) (w : world) (Xv : DataFrame)
    (outs : list outcome) (pred_file : string) : Trainer * world :=
  let table := prediction_table t Xv outs in
  (set_predictions (fold_left record_prediction outs (predictions t)) t,
   mkWorld (<[X_valid t := table]> (frames w))
           (fold_left fit_object outs (estimators w))
           (<[pred_file := Csv (df_columns table)]>
              (fold_left (dump_file t) outs (files w)))
           (fold_left (dump_line t) outs (stdout w)
              ++ ["dumped predictions to file " +:+ pred_file])
           (np_random w)).

(** [s'] differs from [s] at most in the frame object at [l]. *)
Definition only_frame (l : nat) (s s' : Trainer * world) : Prop :=
  fst s' = fst s
  /\ estimators (snd s') = estimators (snd s)
  /\ files (snd s') = files (snd s)
  /\ stdout (snd s') = stdout (snd s)
  /\ np_random (snd s') = np_random (snd s)
  /\ forall l', l' <> l -> frames (snd s') !! l' = frames (snd s) !! l'.

(** The world once [__init__] has printed the ensemble size. *)
Definition announced (n : Z) (w : world) : world :=
  set_stdout (stdout w ++ [String (ascii_of_nat 9) " # estimators = " +:+ str_int n]) w.

(** The trainer and the world [__init__] builds from a split. *)
Definition constructed (n_estimators : Z) (features : list string)
    (sp : split_result) (g : rng) (w : world) : Trainer * world :=
  let '(Xtr, Xv, ytr, yv) := sp in
  let l1 := fresh (dom (frames w)) in
  let fr1 := <[l1 := Xtr]> (frames w) in
  let l2 := fresh (dom fr1) in
  let fr2 := <[l2 := Xv]> fr1 in
  let e1 := fresh (dom (estimators w)) in
  let es1 := <[e1 := Ridge SEED]> (estimators w) in
  let e2 := fresh (dom es1) in
  let es2 := <[e2 := Lasso SEED]> es1 in
  let e3 := fresh (dom es2) in
  let es3 := <[e3 := GradientBoostingRegressor SEED n_estimators]> es2 in
  let e4 := fresh (dom es3) in
  let es4 := <[e4 := RandomForestRegressor SEED n_estimators]> es3 in
  let e5 := fresh (dom es4) in
  let es5 := <[e5 := XGBRegressor n_estimators]> es4 in
  (mkTrainer n_estimators features l1 ytr l2 yv
     [("Boosted Regression Tree", e3); ("Random Forest", e4); ("XGBoost", e5)] [],
   mkWorld fr2 es5 (files w)
     (stdout w ++ [String (ascii_of_nat 9) " # estimators = " +:+ str_int n_estimators])
     g).

(** The partitions a constructed trainer holds, as values. *)
Definition partitions (r : result Trainer * world)
    : result (option DataFrame * option DataFrame * Series * Series) :=
  match fst r with
  | Ok t => Ok (frames (snd r) !! X_train t, frames (snd r) !! X_valid t,
                y_train t, y_valid t)
  | Raise e => Raise e
  end.

(** What the library promises of a split with an integer [random_state]:
    it runs on a generator of its own, whatever the state of the global
    one. *)
Definition seeded_split : Prop :=
  forall X y test_size stratify seed g1 g2,
    fst (train_test_split X y test_size stratify (Some seed) g1)
    = fst (train_test_split X y test_size stratify (Some seed) g2).

End Specification.

(** ** The loop over the ensemble sizes *)
Section Loop.
Context `{L : Library}.
Variables MODEL_DIR RES_DIR : string.

(** The passes of the loop succeed, each on the world the one before
    leaves: pass [n] builds a trainer ready to benchmark, with the outcomes
    [outs]. *)
Inductive passes (train : DataFrame) (dp : DataPrep.t)
    : list Z -> world -> list (Z * list outcome) -> world -> Prop :=
| passes_nil w : passes train dp [] w [] w
| passes_cons n sizes w0 t w Xtr Xv outs blocks w' :
    Trainer_init train 0x1.999999999999ap-4%float dp None n w0 = (Ok t, w) ->
    ready t w Xtr Xv outs ->
    passes train dp sizes
      (snd (snd (Trainer_benchmark MODEL_DIR
                   (os_path_join RES_DIR (str_int n +:+ "_est_validation.csv"))
                   (t, w))))
      blocks w' ->
    passes train dp (n :: sizes) w0 ((n, outs) :: blocks) w'.

(** The outcomes of all passes, each with the size of its pass. *)
Definition stacked (blocks : list (Z * list outcome)) : list (Z * outcome) :=
  flat_map (fun b => map (pair (fst b)) (snd b)) blocks.

(** The table of the errors of [xs], one row each. *)
Definition metrics_table (idx : list Z) (xs : list (Z * outcome)) : DataFrame :=
  mkDataFrame idx
    [("model", map (fun x => Str (o_name (snd x))) xs);
     ("mean_squared_log_error", map (fun x => Num (o_error (snd x))) xs);
     ("n_estimator", map (fun x => Int (fst x)) xs)].

End Loop.

(** ** A small library to run the script on

    Estimators that predict a constant once fitted, a metric that is
    undefined on negative predictions, and a split that takes the first row
    (the last one when stratified) for validation. *)
Module Toy.

Definition take_rows (f : list Z -> list Z) (g : list cell -> list cell)
    (df : DataFrame) : DataFrame :=
  mkDataFrame (f (df_index df)) (map (fun c => (fst c, g (snd c))) (df_columns df)).

Definition take_series (f : list Z -> list Z) (g : list cell -> list cell)
    (s : Series) : Series :=
  mkSeries (f (s_index s)) (g (s_values s)).

Definition split_at_first (X : DataFrame) (y : Series) : split_result :=
  (take_rows (drop 1) (drop 1) X, take_rows (take 1) (take 1) X,
   take_series (drop 1) (drop 1) y, take_series (take 1) (take 1) y).

Definition split_at_last (X : DataFrame) (y : Series) : split_result :=
  let n := (nrows X - 1)%nat in
  (take_rows (take n) (take n) X, take_rows (drop n) (drop n) X,
   take_series (take n) (take n) y, take_series (drop n) (drop n) y).

Definition key_length (k : array_like) : nat :=
  match k with
  | PyList l => length l
  | PdSeries s => length (s_values s)
  end.

Definition split (X : DataFrame) (y : Series) (test_size : float)
    (stratify : option array_like) (random_state : option Z) (g : Z)
    : result split_result * Z :=
  let r := match stratify with
           | None => Ok (split_at_first X y)
           | Some k => if Nat.eqb (key_length k) (nrows X)
                       then Ok (split_at_last X y)
                       else Raise ValueError
           end in
  match random_state with
  | Some _ => (r, g)
  | None => (if Z.even g then r else Ok (split_at_last X y), g + 1)
  end.

Definition msle (y_true : Series) (y_pred : list float) : result float :=
  if existsb (fun p => PrimFloat.ltb p 0%float) y_pred then Raise ValueError
  else Ok 0.25%float.

#[export] Instance library : Library := {|
  regressor := float * bool;
  rng := Z;
  Ridge := fun _ => (0%float, false);
  Lasso := fun _ => (0%float, false);
  GradientBoostingRegressor := fun _ _ => ((-1)%float, false);
  RandomForestRegressor := fun _ _ => (2%float, false);
  XGBRegressor := fun _ => (3%float, false);
  fit := fun m _ _ => Ok (fst m, true);
  predict := fun m X => if snd m then Ok (repeat (fst m) (nrows X))
                        else Raise RuntimeError;
  mean_squared_log_error := msle;
  train_test_split := split;
  float_of_int := fun z => PrimFloat.of_uint63 (Uint63.of_Z z)
|}.

Definition train : DataFrame :=
  mkDataFrame [0; 1; 2]
    [("Id", [Int 1; Int 2; Int 3]);
     ("LotArea", [Num 8450; Num 9600; Num 11250]);
     ("SalePrice", [Num 208500; Num 181500; Num 223500])].

Definition dp : DataPrep.t := DataPrep.mk ["LotArea"].

Definition world0 : world :=
  mkWorld ∅ ∅ ∅ [] 0.

(** A trainer built on that library, and what benchmarking it yields. *)
Definition ratio : float := 0x1.999999999999ap-4%float.

Definition run : result Trainer * world :=
  Trainer_init train ratio dp None 100 world0.

Definition X_train_rows : DataFrame :=
  mkDataFrame [1; 2] [("LotArea", [Num 9600; Num 11250])].

Definition X_valid_rows : DataFrame :=
  mkDataFrame [0] [("LotArea", [Num 8450])].

Definition trainer : Trainer :=
  mkTrainer 100 ["LotArea"]
    0%nat (mkSeries [1; 2] [Num 181500; Num 223500])
    1%nat (mkSeries [0] [Num 208500])
    [("Boosted Regression Tree", 2%nat); ("Random Forest", 3%nat); ("XGBoost", 4%nat)]
    [].

Definition world1 : world := snd run.

Definition brt : outcome :=
  mkOutcome "Boosted Regression Tree" 2 ((-1)%float, true) [(-1)%float] nan.
Definition rf : outcome :=
  mkOutcome "Random Forest" 3 (2%float, true) [2%float] 0.25%float.
Definition xgb : outcome :=
  mkOutcome "XGBoost" 4 (3%float, true) [3%float] 0.25%float.

Definition outs : list outcome := [brt; rf; xgb].

(** The second pass of the loop over the sizes, from the world the first
    one leaves. *)
Definition model_dir : string := "models".
Definition res_dir : string := "res".

Definition world2 : world :=
  snd (snd (Trainer_benchmark model_dir
              (os_path_join res_dir (str_int 100 +:+ "_est_validation.csv"))
              (trainer, world1))).

Definition trainer150 : Trainer :=
  mkTrainer 150 ["LotArea"]
    2%nat (mkSeries [1; 2] [Num 181500; Num 223500])
    3%nat (mkSeries [0] [Num 208500])
    [("Boosted Regression Tree", 7%nat); ("Random Forest", 8%nat); ("XGBoost", 9%nat)]
    [].

Definition world3 : world := snd (Trainer_init train ratio dp None 150 world2).

Definition outs150 : list outcome :=
  [mkOutcome "Boosted Regression Tree" 7 ((-1)%float, true) [(-1)%float] nan;
   mkOutcome "Random Forest" 8 (2%float, true) [2%float] 0.25%float;
   mkOutcome "XGBoost" 9 (3%float, true) [3%float] 0.25%float].

End Toy.

(** ** A small library whose calls can fail

    Estimators that refuse an ensemble size below one when fitted and a
    table with the target among its columns when predicting, and a metric
    that refuses a target with text in it. *)
Module Strict.

Definition fit_size (m : Z * bool) (X : DataFrame) (y : Series) : result (Z * bool) :=
  if Z.leb (fst m) 0 then Raise ValueError else Ok (fst m, true).

Definition predict_features (m : Z * bool) (X : DataFrame) : result (list float) :=
  if snd m then
    if existsb (String.eqb "SalePrice") (column_names X) then Raise ValueError
    else Ok (repeat 1%float (nrows X))
  else Raise RuntimeError.

Definition is_text (c : cell) : bool :=
  match c with Str _ => true | _ => false end.

Definition msle (y_true : Series) (y_pred : list float) : result float :=
  if existsb is_text (s_values y_true) then Raise TypeError
  else if existsb (fun p => PrimFloat.ltb p 0%float) y_pred then Raise ValueError
  else Ok 0.25%float.

#[export] Instance library : Library := {|
  regressor := Z * bool;
  rng := Z;
  Ridge := fun _ => (1, false);
  Lasso := fun _ => (1, false);
  GradientBoostingRegressor := fun _ n => (n, false);
  RandomForestRegressor := fun _ n => (n, false);
  XGBRegressor := fun n => (n, false);
  fit := fit_size;
  predict := predict_features;
  mean_squared_log_error := msle;
  train_test_split := Toy.split;
  float_of_int := fun z => PrimFloat.of_uint63 (Uint63.of_Z z)
|}.

Definition X_train_rows : DataFrame :=
  mkDataFrame [1; 2] [("LotArea", [Num 9600; Num 11250])].

Definition X_valid_rows : DataFrame :=
  mkDataFrame [0] [("LotArea", [Num 8450])].

Definition X_valid_with_target : DataFrame :=
  mkDataFrame [0] [("LotArea", [Num 8450]); ("SalePrice", [Num 208500])].

(** Two tables and a validation table with the target in it; an estimator
    of size 100 and one of size 0. *)
Definition world0 : world :=
  mkWorld (<[2%nat := X_valid_with_target]>
             (<[1%nat := X_valid_rows]> (<[0%nat := X_train_rows]> ∅)))
          (<[1%nat := (0, false)]> (<[0%nat := (100, false)]> ∅))
          ∅ [] 0.

Definition trainer : Trainer :=
  mkTrainer 100 ["LotArea"]
    0%nat (mkSeries [1; 2] [Num 181500; Num 223500])
    1%nat (mkSeries [0] [Num 208500])
    [("Forest of 100", 0%nat); ("Forest of 0", 1%nat)]
    [].

(** The same with a target read as text, and with the validation table
    that holds the target. *)
Definition trainer_text : Trainer :=
  mkTrainer 100 ["LotArea"]
    0%nat (mkSeries [1; 2] [Num 181500; Num 223500])
    1%nat (mkSeries [0] [Str "208,500"])
    [("Forest of 100", 0%nat); ("Forest of 0", 1%nat)]
    [].

Definition trainer_target : Trainer :=
  mkTrainer 100 ["LotArea"]
    0%nat (mkSeries [1; 2] [Num 181500; Num 223500])
    2%nat (mkSeries [0] [Num 208500])
    [("Forest of 100", 0%nat); ("Forest of 0", 1%nat)]
    [].

Definition good : outcome :=
  mkOutcome "Forest of 100" 0 (100, true) [1%float] 0.25%float.

End Strict.


(** ** Properties *)
Section Properties.
Context `{L : Library}.
Variables MODEL_DIR RES_DIR DAT_DIR : string.

Local Abbreviation predictor_file := (predictor_file MODEL_DIR).
Local Abbreviation after_eval := (after_eval MODEL_DIR).
Local Abbreviation eval_step := (eval_step MODEL_DIR).
Local Abbreviation after_evals := (after_evals MODEL_DIR).
Local Abbreviation dump_file := (dump_file MODEL_DIR).
Local Abbreviation dump_line := (dump_line MODEL_DIR).
Local Abbreviation after_benchmark := (after_benchmark MODEL_DIR).

Lemma eval_spec t w model name m Xtr Xv m' p :
  estimators w !! model = Some m ->
  frames w !! X_train t = Some Xtr ->
  frames w !! X_valid t = Some Xv ->
  fit m Xtr (y_train t) = Ok m' ->
  predict m' Xv = Ok p ->
  Trainer_eval MODEL_DIR model name (t, w)
  = (caught (mean_squared_log_error (y_valid t) p), after_eval t w model name m' p).
Proof.
  intros He Htr Hv Hfit Hpred.
  unfold Trainer_eval, Trainer_dump_predictor, estimator_fit, estimator_predict,
    joblib_dump, print, in_world, get_self, estimator_at, frame_at,
    try_except, bind, ret, lift_result, gets, modify.
  simpl.
  repeat (first [rewrite lookup_insert_eq | rewrite He | rewrite Htr | rewrite Hv
                | rewrite Hfit | rewrite Hpred]; simpl).
  unfold after_eval, predictor_file.
  destruct (mean_squared_log_error (y_valid t) p) as [e|e]; simpl; [reflexivity|].
  destruct e; reflexivity.
Qed.

Lemma after_eval_frames t w model name m' p :
  frames (snd (after_eval t w model name m' p)) = frames w.
Proof. reflexivity. Qed.

Lemma eval_loop_spec Xtr Xv outs : forall t w errors,
  frames w !! X_train t = Some Xtr ->
  frames w !! X_valid t = Some Xv ->
  NoDup (map o_model outs) ->
  Forall (runs t w Xtr Xv) outs ->
  for_loop (map candidate outs)
    (fun item (errors : dict float) =>
       bind (Trainer_eval MODEL_DIR (snd item) (fst item))
            (fun e => ret (dict_set (fst item) e errors)))
    errors (t, w)
  = (Ok (fold_left record_error outs errors), after_evals outs (t, w)).
Proof.
  induction outs as [|o outs IH]; intros t w errors Htr Hv Hnd Hruns.
  - reflexivity.
  - inversion Hnd as [|? ? Hnotin Hnd']; subst.
    inversion Hruns as [|? ? Ho Hrest]; subst.
    destruct Ho as ((m & Hm & Hfit) & Hpred & Herr).
    simpl for_loop. unfold bind at 1. unfold bind at 1.
    rewrite (eval_spec t w (o_model o) (o_name o) m Xtr Xv _ _ Hm Htr Hv Hfit Hpred).
    rewrite Herr. unfold ret at 1.
    unfold after_evals. simpl fold_left.
    change (eval_step (t, w) o) with (after_eval t w (o_model o) (o_name o) (o_fitted o) (o_pred o)).
    unfold after_eval at 1 2.
    apply IH; simpl; try assumption.
    apply Forall_forall. intros o' Hin.
    rewrite Forall_forall in Hrest. specialize (Hrest o' Hin).
    destruct Hrest as ((m0 & Hm0 & Hfit0) & Hpred0 & Herr0).
    repeat split; try assumption.
    exists m0. split; [|assumption]. simpl.
    rewrite lookup_insert_ne; [assumption|].
    intros Heq. apply Hnotin. rewrite Heq.
    change (map o_model outs) with (o_model <$> outs).
    apply list_elem_of_fmap_2. assumption.
Qed.

Lemma store_frame_twice l a b w :
  store_frame l b (store_frame l a w) = store_frame l b w.
Proof. unfold store_frame, set_frames. simpl. by rewrite insert_insert_eq. Qed.

Lemma store_frame_id l df w : frames w !! l = Some df -> store_frame l df w = w.
Proof.
  intros H. unfold store_frame, set_frames. rewrite (insert_id _ _ _ H).
  by destruct w.
Qed.

Lemma frame_update_spec (t : Trainer) w l f df df' :
  frames w !! l = Some df -> f df = Ok df' ->
  in_world (frame_update l f) (t, w) = (Ok tt, (t, store_frame l df' w)).
Proof.
  intros Hl Hf. unfold in_world, frame_update, frame_at, bind, lift_result, modify.
  simpl. rewrite Hl. simpl. rewrite Hf. reflexivity.
Qed.

Lemma dict_get_set_eq {V} k (v : V) d : dict_get k (dict_set k v d) = Some v.
Proof.
  induction d as [|[k' v'] d IH]; simpl.
  - by rewrite String.eqb_refl.
  - destruct (String.eqb k k') eqn:E; simpl; rewrite ?String.eqb_refl, ?E; auto.
Qed.

Lemma dict_get_set_ne {V} k k' (v : V) d :
  k <> k' -> dict_get k' (dict_set k v d) = dict_get k' d.
Proof.
  intros Hne. induction d as [|[k0 v0] d IH]; simpl.
  - destruct (String.eqb k' k) eqn:E; [|done].
    apply String.eqb_eq in E. congruence.
  - destruct (String.eqb k k0) eqn:E; simpl.
    + apply String.eqb_eq in E. subst k0.
      destruct (String.eqb k' k) eqn:E'; [|done].
      apply String.eqb_eq in E'. congruence.
    + destruct (String.eqb k' k0); auto.
Qed.

Lemma length_append (a b : string) :
  String.length (a +:+ b) = (String.length a + String.length b)%nat.
Proof. induction a; simpl; auto. Qed.

Lemma length_map_string f s : String.length (map_string f s) = String.length s.
Proof. induction s; simpl; auto. Qed.

Lemma prediction_label_not_target name : prediction_label name <> "SalePrice".
Proof. unfold prediction_label. simpl. discriminate. Qed.

Lemma error_label_not_target name : error_label name <> "SalePrice".
Proof.
  unfold error_label, rm_space, str_lower, str_replace. intros H.
  assert (Hlen : String.length name = 3%nat).
  { apply (f_equal String.length) in H.
    rewrite length_append, !length_map_string in H. simpl in H. lia. }
  destruct name as [|a [|b [|c [|d name]]]]; try discriminate Hlen.
  cbv [String.append map_string] in H. congruence.
Qed.

Lemma cells_rsub_numeric p : forall y,
  Forall numeric y -> exists r, cells_rsub p y = Ok r.
Proof.
  induction p as [|x p IH]; intros y Hy; simpl; [eauto|].
  destruct y as [|c y]; [eauto|].
  inversion Hy as [|? ? Hc Hy']; subst.
  destruct (IH y Hy') as [r Hr]. rewrite Hr.
  destruct c; simpl in *; try contradiction; eauto.
Qed.

Lemma cells_rsub_residuals p y :
  Forall numeric y -> cells_rsub p y = Ok (residuals p y).
Proof.
  intros Hy. unfold residuals.
  destruct (cells_rsub_numeric p y Hy) as [r Hr]. by rewrite Hr.
Qed.

Lemma ensure_valid_index_same df idx :
  length idx = nrows df -> ensure_valid_index df idx = df.
Proof.
  unfold ensure_valid_index, nrows. intros H.
  destruct (df_index df); [|done]. by destruct idx.
Qed.

Lemma length_range_index n : length (range_index n) = n.
Proof. unfold range_index. by rewrite length_map, length_seq. Qed.

Lemma setitem_array_ok df label a :
  length a = nrows df -> setitem_array df label a = Ok (set_column df label a).
Proof.
  intros H. unfold setitem_array.
  rewrite ensure_valid_index_same by (by rewrite length_range_index).
  by rewrite H, Nat.eqb_refl.
Qed.

Lemma setitem_series_ok df label s :
  s_index s = df_index df ->
  setitem_series df label s = Ok (set_column df label (s_values s)).
Proof.
  intros H. unfold setitem_series.
  rewrite ensure_valid_index_same by (by rewrite H).
  unfold reindex, zeq_list. by rewrite bool_decide_eq_true_2.
Qed.

Lemma array_sub_ok p s :
  length p = length (s_values s) -> Forall numeric (s_values s) ->
  array_sub p s = Ok (mkSeries (s_index s) (residuals p (s_values s))).
Proof.
  intros Hlen Hnum. unfold array_sub.
  rewrite Hlen, Nat.eqb_refl, cells_rsub_residuals; auto.
Qed.

Lemma retrieve_loop_spec (t : Trainer) outs : forall df w,
  frames w !! X_valid t = Some df ->
  column "SalePrice" df = Some (s_values (y_valid t)) ->
  length (s_values (y_valid t)) = nrows df ->
  Forall numeric (s_values (y_valid t)) ->
  Forall (recorded t (nrows df)) outs ->
  for_loop (map o_name outs)
    (fun model (_ : unit) =>
       (do self <- get_self;
        do p <- lift_result (dict_getitem model (predictions self));
        in_world (frame_update (X_valid t)
                    (fun df => setitem_array df ("price_predict_" +:+ model) (map Num p))) ;;
        do p <- lift_result (dict_getitem model (predictions self));
        do df <- in_world (frame_at (X_valid t));
        do sale_price <- lift_result (getitem df "SalePrice");
        do err <- lift_result (array_sub p sale_price);
        in_world (frame_update (X_valid t)
                    (fun df => setitem_series df (rm_space model +:+ "_error") err)))%py)
    tt (t, w)
  = (Ok tt, (t, store_frame (X_valid t)
                  (fold_left (add_prediction (s_values (y_valid t))) outs df) w)).
Proof.
  induction outs as [|o outs IH]; intros df w Hdf Hcol Hlen Hnum Hrec.
  - simpl. unfold ret. by rewrite store_frame_id.
  - inversion Hrec as [|? ? [Hp Hplen] Hrec']; subst.
    set (df1 := set_column df (prediction_label (o_name o)) (map Num (o_pred o))).
    assert (Hcol1 : column "SalePrice" df1 = Some (s_values (y_valid t))).
    { unfold df1, column, set_column. simpl.
      rewrite dict_get_set_ne; [exact Hcol|apply prediction_label_not_target]. }
    simpl for_loop. unfold bind at 1. unfold bind at 1, get_self at 1, gets at 1.
    unfold bind at 1, lift_result at 1, dict_getitem at 1. simpl fst. rewrite Hp.
    unfold bind at 1.
    rewrite (frame_update_spec t w (X_valid t) _ df df1 Hdf)
      by (apply setitem_array_ok; by rewrite length_map).
    unfold bind at 1, lift_result at 1, dict_getitem at 1. rewrite Hp.
    unfold bind at 1, in_world at 1, frame_at at 1.
    simpl snd. simpl fst. unfold store_frame at 1 2. simpl frames.
    rewrite lookup_insert_eq.
    unfold bind at 1, lift_result at 1, getitem at 1. rewrite Hcol1.
    unfold bind at 1, lift_result at 1.
    rewrite array_sub_ok by (simpl; first [congruence|assumption]).
    simpl s_index. simpl s_values.
    fold (store_frame (X_valid t) df1 w).
    rewrite (frame_update_spec t _ (X_valid t) _ df1 (add_prediction (s_values (y_valid t)) df o));
      [|unfold store_frame; simpl; by rewrite lookup_insert_eq
       |by rewrite setitem_series_ok].
    rewrite store_frame_twice.
    rewrite (IH (add_prediction (s_values (y_valid t)) df o)); simpl fold_left.
    + by rewrite store_frame_twice.
    + unfold store_frame; simpl; by rewrite lookup_insert_eq.
    + unfold add_prediction, column, set_column. simpl.
      rewrite dict_get_set_ne; [exact Hcol1|apply error_label_not_target].
    + exact Hlen.
    + exact Hnum.
    + exact Hrec'.
Qed.

Lemma retrieve_spec (t : Trainer) w Xv outs :
  frames w !! X_valid t = Some Xv ->
  s_index (y_valid t) = df_index Xv ->
  length (s_values (y_valid t)) = nrows Xv ->
  Forall numeric (s_values (y_valid t)) ->
  dict_keys (models t) = map o_name outs ->
  Forall (recorded t (nrows Xv)) outs ->
  Trainer_retrieve_predictions (t, w)
  = (Ok (X_valid t), (t, store_frame (X_valid t) (prediction_table t Xv outs) w)).
Proof.
  intros Hv Hidx Hlen Hnum Hkeys Hrec.
  unfold Trainer_retrieve_predictions.
  unfold bind at 1, get_self at 1, gets at 1. simpl fst.
  unfold bind at 1.
  rewrite (frame_update_spec t w (X_valid t) _ Xv
             (set_column Xv "SalePrice" (s_values (y_valid t))) Hv)
    by (by apply setitem_series_ok).
  unfold bind at 1. rewrite Hkeys.
  rewrite (retrieve_loop_spec t outs (set_column Xv "SalePrice" (s_values (y_valid t)))).
  - rewrite store_frame_twice. reflexivity.
  - unfold store_frame. simpl. by rewrite lookup_insert_eq.
  - unfold column, set_column. simpl. apply dict_get_set_eq.
  - exact Hlen.
  - exact Hnum.
  - exact Hrec.
Qed.

Lemma after_evals_eq outs : forall t w,
  after_evals outs (t, w)
  = (set_predictions (fold_left record_prediction outs (predictions t)) t,
     mkWorld (frames w) (fold_left fit_object outs (estimators w))
             (fold_left (dump_file t) outs (files w))
             (fold_left (dump_line t) outs (stdout w)) (np_random w)).
Proof.
  induction outs as [|o outs IH]; intros t w.
  - by destruct t, w.
  - unfold after_evals. simpl fold_left.
    change (fold_left eval_step outs ?s) with (after_evals outs s).
    unfold eval_step, after_eval. simpl fst. simpl snd. rewrite IH. reflexivity.
Qed.

Lemma dict_set_fresh {V} k (v : V) d :
  dict_get k d = None -> dict_set k v d = d ++ [(k, v)].
Proof.
  induction d as [|[k' v'] d IH]; simpl; [done|].
  destruct (String.eqb k k'); [done|]. intros H. by rewrite IH.
Qed.

Lemma dict_get_app_fresh {V} k k' (v : V) d :
  k <> k' -> dict_get k' d = None -> dict_get k' (d ++ [(k, v)]) = None.
Proof.
  intros Hne. induction d as [|[k0 v0] d IH]; simpl.
  - destruct (String.eqb k' k) eqn:E; [|done].
    apply String.eqb_eq in E. congruence.
  - destruct (String.eqb k' k0); [done|]. exact IH.
Qed.

Lemma fold_dict_set_fresh {A V} (key : A -> string) (val : A -> V) l : forall d,
  NoDup (map key l) ->
  (forall x, x ∈ l -> dict_get (key x) d = None) ->
  fold_left (fun d x => dict_set (key x) (val x) d) l d
  = d ++ map (fun x => (key x, val x)) l.
Proof.
  induction l as [|a l IH]; intros d Hnd Hfresh; simpl.
  - by rewrite app_nil_r.
  - inversion Hnd as [|? ? Hnotin Hnd']; subst.
    rewrite dict_set_fresh by (apply Hfresh; left).
    rewrite IH; [by rewrite <- app_assoc|assumption|].
    intros x Hx. apply dict_get_app_fresh; [|apply Hfresh; by right].
    intros Heq. apply Hnotin. rewrite Heq.
    change (map key l) with (key <$> l). by apply list_elem_of_fmap_2.
Qed.

Lemma fold_dict_set_other {A V} (key : A -> string) (val : A -> V) k l : forall d,
  k ∉ map key l ->
  dict_get k (fold_left (fun d x => dict_set (key x) (val x) d) l d) = dict_get k d.
Proof.
  induction l as [|a l IH]; intros d Hk; simpl; [done|].
  rewrite IH.
  - apply dict_get_set_ne. intros Heq. apply Hk. rewrite <- Heq. left.
  - intros Hin. apply Hk. by right.
Qed.

Lemma fold_dict_set_get {A V} (key : A -> string) (val : A -> V) l : forall d x,
  NoDup (map key l) -> x ∈ l ->
  dict_get (key x) (fold_left (fun d x => dict_set (key x) (val x) d) l d)
  = Some (val x).
Proof.
  induction l as [|a l IH]; intros d x Hnd Hx; [by inversion Hx|].
  inversion Hnd as [|? ? Hnotin Hnd']; subst. simpl.
  apply elem_of_cons in Hx as [->|Hx].
  - rewrite fold_dict_set_other by assumption. apply dict_get_set_eq.
  - by apply IH.
Qed.

Lemma benchmark_spec t w Xtr Xv outs pred_file :
  ready t w Xtr Xv outs ->
  Trainer_benchmark MODEL_DIR pred_file (t, w)
  = (Ok (error_table t outs), after_benchmark t w Xv outs pred_file).
Proof.
  intros [Htr Hv Hmodels Hnames Hobjs Hruns Hidx Htarget Hnum Hlens].
  unfold Trainer_benchmark.
  unfold bind at 1, get_self at 1, gets at 1. simpl fst.
  unfold bind at 1. rewrite Hmodels.
  rewrite (eval_loop_spec Xtr Xv outs t w [] Htr Hv Hobjs Hruns).
  rewrite after_evals_eq.
  unfold record_error.
  rewrite (fold_dict_set_fresh o_name o_error outs []) by (done || (intros; done)).
  simpl app.
  unfold bind at 1, lift_result at 1, DataFrame_of_dict.
  unfold dict_keys, dict_values. rewrite !map_map. simpl fst. simpl snd.
  cbn [forallb snd]. rewrite !length_map, Nat.eqb_refl. simpl andb.
  unfold bind at 1, get_self at 1, gets at 1. simpl fst.
  unfold bind at 1.
  set (t1 := set_predictions _ t).
  set (w1 := mkWorld _ _ _ _ _).
  rewrite (retrieve_spec t1 w1 Xv outs); try assumption.
  - unfold bind at 1, in_world at 1, to_csv, frame_at, bind, modify.
    simpl. rewrite lookup_insert_eq. simpl.
    unfold after_benchmark, error_table, setitem_scalar, set_column, nrows.
    simpl. rewrite length_range_index. reflexivity.
  - unfold dict_keys. simpl. rewrite Hmodels, map_map. reflexivity.
  - apply Forall_forall. intros o Ho. split.
    + unfold t1. simpl. by apply (fold_dict_set_get o_name o_pred).
    + rewrite Forall_forall in Hlens. by apply Hlens.
Qed.


(** *** Rows of a table built from one list *)

Lemma map_seq_lookup {A B} (F : nat -> B) (G : A -> B) (xs : list A) : forall j,
  (forall i x, xs !! i = Some x -> F (j + i)%nat = G x) ->
  map F (seq j (length xs)) = map G xs.
Proof.
  induction xs as [|x xs IH]; intros j H; simpl; [done|].
  f_equal.
  - rewrite <- (H 0%nat x eq_refl). f_equal. lia.
  - apply IH. intros i y Hy. rewrite <- (H (S i) y Hy). f_equal. lia.
Qed.

Lemma rows_of_columns {A} (xs : list A) (idx : list Z)
    (fs : list (string * (A -> cell))) :
  length idx = length xs ->
  rows (mkDataFrame idx (map (fun lf => (fst lf, map (snd lf) xs)) fs))
  = map (fun x => map (fun lf => snd lf x) fs) xs.
Proof.
  intros Hlen. unfold rows, nrows. simpl df_index. rewrite Hlen.
  apply (map_seq_lookup _ _ xs 0). intros i x Hx.
  unfold row. simpl df_columns. rewrite map_map. apply map_ext.
  intros [l f]. simpl.
  change (map f xs) with (f <$> xs). by rewrite list_lookup_fmap, Hx.
Qed.

Lemma repeat_as_map {A B} (c : B) (xs : list A) :
  repeat c (length xs) = map (fun _ => c) xs.
Proof. induction xs; simpl; congruence. Qed.

Lemma error_table_rows (t : Trainer) (outs : list outcome) :
  rows (error_table t outs) = map (error_row (n_estimator t)) outs.
Proof.
  unfold error_table. rewrite repeat_as_map.
  apply (rows_of_columns outs _
           [("model", fun o => Str (o_name o));
            ("mean_squared_log_error", fun o => Num (o_error o));
            ("n_estimator", fun _ => Int (n_estimator t))]).
  apply length_range_index.
Qed.

(** C4: a run of [benchmark] on a ready trainer returns the error table,
    whose columns are the model name, the metric value and the ensemble
    size, and whose rows are one per configured candidate, in the order of
    [self.models], each with the candidate's name, its metric value (NaN
    when the metric was undefined) and the run's ensemble size. *)
Theorem benchmark_one_row_per_candidate t w Xtr Xv outs pred_file :
  ready t w Xtr Xv outs ->
  exists error_df,
    fst (Trainer_benchmark MODEL_DIR pred_file (t, w)) = Ok error_df
    /\ column_names error_df = ["model"; "mean_squared_log_error"; "n_estimator"]
    /\ rows error_df = map (error_row (n_estimator t)) outs
    /\ map o_name outs = dict_keys (models t)
    /\ length (rows error_df) = length (models t)
    /\ NoDup (dict_keys (models t)).
Proof.
  intros Hready. exists (error_table t outs).
  rewrite (benchmark_spec t w Xtr Xv outs pred_file Hready).
  destruct Hready as [_ _ Hmodels Hnames _ _ _ _ _ _].
  assert (Hkeys : map o_name outs = dict_keys (models t)).
  { unfold dict_keys. rewrite Hmodels, map_map. reflexivity. }
  repeat split.
  - apply error_table_rows.
  - exact Hkeys.
  - rewrite error_table_rows, Hmodels, !length_map. reflexivity.
  - rewrite <- Hkeys. exact Hnames.
Qed.

(** C1: when the metric raises [ValueError] on a candidate's validation
    predictions, [eval] returns NaN for it, and [benchmark] still returns an
    error table, with the row of that candidate holding NaN. *)
Theorem undefined_metric_is_nan t w Xtr Xv outs o pred_file :
  ready t w Xtr Xv outs ->
  o ∈ outs ->
  mean_squared_log_error (y_valid t) (o_pred o) = Raise ValueError ->
  fst (Trainer_eval MODEL_DIR (o_model o) (o_name o) (t, w)) = Ok nan
  /\ exists error_df,
       fst (Trainer_benchmark MODEL_DIR pred_file (t, w)) = Ok error_df
       /\ [Str (o_name o); Num nan; Int (n_estimator t)] ∈ rows error_df.
Proof.
  intros Hready Ho Hmetric.
  assert (Hruns : runs t w Xtr Xv o).
  { destruct Hready as [_ _ _ _ _ Hruns _ _ _ _].
    rewrite Forall_forall in Hruns. by apply Hruns. }
  destruct Hruns as ((m & Hm & Hfit) & Hpred & Herr).
  rewrite Hmetric in Herr. simpl in Herr.
  split.
  - destruct Hready as [Htr Hv _ _ _ _ _ _ _ _].
    rewrite (eval_spec t w (o_model o) (o_name o) m Xtr Xv _ _ Hm Htr Hv Hfit Hpred).
    by rewrite Hmetric.
  - exists (error_table t outs).
    rewrite (benchmark_spec t w Xtr Xv outs pred_file Hready).
    split; [reflexivity|]. rewrite error_table_rows.
    replace [Str (o_name o); Num nan; Int (n_estimator t)]
      with (error_row (n_estimator t) o).
    + change (map ?f outs) with (f <$> outs). by apply list_elem_of_fmap_2.
    + unfold error_row. congruence.
Qed.

(** *** Construction *)


Lemma init_eq train ratio dp stratify n w0 :
  Trainer_init train ratio dp stratify n w0
  = match select_X_y train (DataPrep.features dp) with
    | Raise e => (Raise e, announced n w0)
    | Ok (X, y) =>
        match py_not stratify with
        | Raise e => (Raise e, announced n w0)
        | Ok b =>
            match train_test_split X y ratio (if b then None else stratify)
                    (Some SEED) (np_random w0) with
            | (Raise e, g) => (Raise e, set_np_random g (announced n w0))
            | (Ok sp, g) =>
                (Ok (fst (constructed n (DataPrep.features dp) sp g w0)),
                 snd (constructed n (DataPrep.features dp) sp g w0))
            end
        end
    end.
Proof.
  unfold Trainer_init. unfold bind at 1, print at 1, modify at 1.
  fold (announced n w0).
  unfold bind at 1, lift_result at 1.
  destruct (select_X_y train (DataPrep.features dp)) as [[X y]|e]; [|reflexivity].
  unfold bind at 1, lift_result at 1.
  destruct (py_not stratify) as [b|e]; [|reflexivity].
  unfold bind at 1.
  replace (if b then call_train_test_split X y ratio None (Some SEED)
           else call_train_test_split X y ratio stratify (Some SEED))
    with (call_train_test_split X y ratio (if b then None else stratify) (Some SEED))
    by (by destruct b).
  unfold call_train_test_split at 1. simpl np_random.
  destruct (train_test_split X y ratio (if b then None else stratify) (Some SEED)
              (np_random w0)) as [[sp|e] g]; [|reflexivity].
  destruct sp as [[[Xtr Xv] ytr] yv].
  reflexivity.
Qed.

Lemma init_inv train ratio dp stratify n w0 t w :
  Trainer_init train ratio dp stratify n w0 = (Ok t, w) ->
  exists X y b sp g,
    select_X_y train (DataPrep.features dp) = Ok (X, y)
    /\ py_not stratify = Ok b
    /\ train_test_split X y ratio (if b then None else stratify) (Some SEED)
         (np_random w0) = (Ok sp, g)
    /\ (t, w) = constructed n (DataPrep.features dp) sp g w0.
Proof.
  rewrite init_eq. intros Hinit.
  destruct (select_X_y train (DataPrep.features dp)) as [[X y]|e] eqn:HXy;
    [|discriminate].
  destruct (py_not stratify) as [b|e] eqn:Hnot; [|discriminate].
  destruct (train_test_split X y ratio (if b then None else stratify) (Some SEED)
              (np_random w0)) as [[sp|e] g] eqn:Hsplit; [|discriminate].
  exists X, y, b, sp, g. do 3 (split; [first [reflexivity|assumption]|]).
  destruct (constructed n (DataPrep.features dp) sp g w0). simpl in Hinit. congruence.
Qed.

Lemma fresh_insert_ne {V} (m : gmap nat V) (l : nat) (v : V) :
  fresh (dom (<[l := v]> m)) <> l.
Proof.
  intros Heq. apply (is_fresh (dom (<[l := v]> m))).
  rewrite Heq at 1. rewrite dom_insert_L. set_solver.
Qed.

Lemma fresh_not_in {V} (m : gmap nat V) : m !! fresh (dom m) = None.
Proof. apply not_elem_of_dom. apply is_fresh. Qed.

Lemma constructed_trainer n feats Xtr Xv ytr yv g w0 t w :
  (t, w) = constructed n feats (Xtr, Xv, ytr, yv) g w0 ->
  n_estimator t = n
  /\ features t = feats
  /\ y_train t = ytr
  /\ y_valid t = yv
  /\ predictions t = []
  /\ dict_keys (models t) = tree_names
  /\ frames w !! X_train t = Some Xtr
  /\ frames w !! X_valid t = Some Xv
  /\ X_train t <> X_valid t.
Proof.
  unfold constructed. intros Heq. injection Heq as -> ->. simpl.
  repeat split.
  - rewrite lookup_insert_ne by apply fresh_insert_ne.
    apply lookup_insert_eq.
  - apply lookup_insert_eq.
  - intros Heq. symmetry in Heq. revert Heq. apply fresh_insert_ne.
Qed.

Lemma init_trainer train ratio dp stratify n w0 t w :
  Trainer_init train ratio dp stratify n w0 = (Ok t, w) ->
  n_estimator t = n
  /\ features t = DataPrep.features dp
  /\ predictions t = []
  /\ dict_keys (models t) = tree_names
  /\ X_train t <> X_valid t.
Proof.
  intros Hinit.
  destruct (init_inv _ _ _ _ _ _ _ _ Hinit)
    as (X & y & b & [[[Xtr Xv] ytr] yv] & g & _ & _ & _ & Hc).
  destruct (constructed_trainer _ _ _ _ _ _ _ _ _ _ Hc)
    as (? & ? & ? & ? & ? & ? & ? & ? & ?).
  auto.
Qed.

(** *** Columns of the prediction table *)

Lemma column_set_eq df l v : column l (set_column df l v) = Some v.
Proof. unfold column, set_column. simpl. apply dict_get_set_eq. Qed.

Lemma column_set_ne df l l' v :
  l <> l' -> column l' (set_column df l v) = column l' df.
Proof. intros H. unfold column, set_column. simpl. by apply dict_get_set_ne. Qed.

Lemma column_fold_other y outs : forall df l,
  l ∉ candidate_labels outs ->
  column l (fold_left (add_prediction y) outs df) = column l df.
Proof.
  induction outs as [|o outs IH]; intros df l Hl; simpl; [done|].
  unfold candidate_labels in Hl. simpl in Hl.
  apply not_elem_of_cons in Hl as [H1 Hl].
  apply not_elem_of_cons in Hl as [H2 Hl].
  rewrite IH by exact Hl. unfold add_prediction.
  rewrite !column_set_ne; auto.
Qed.

Lemma target_not_candidate_label outs : "SalePrice" ∉ candidate_labels outs.
Proof.
  induction outs as [|o outs IH]; unfold candidate_labels; simpl.
  - apply not_elem_of_nil.
  - apply not_elem_of_cons. split.
    { intros H. by apply (prediction_label_not_target (o_name o)). }
    apply not_elem_of_cons. split; [|exact IH].
    intros H. by apply (error_label_not_target (o_name o)).
Qed.

Lemma column_fold_candidate y outs : forall df o,
  NoDup (candidate_labels outs) -> o ∈ outs ->
  column (prediction_label (o_name o)) (fold_left (add_prediction y) outs df)
  = Some (map Num (o_pred o))
  /\ column (error_label (o_name o)) (fold_left (add_prediction y) outs df)
     = Some (residuals (o_pred o) y).
Proof.
  induction outs as [|o' outs IH]; intros df o Hnd Ho; [by inversion Ho|].
  unfold candidate_labels in Hnd. simpl in Hnd.
  apply NoDup_cons in Hnd as [H1 Hnd]. apply NoDup_cons in Hnd as [H2 Hnd].
  apply not_elem_of_cons in H1 as [H12 H1].
  apply elem_of_cons in Ho as [->|Ho]; [|by apply IH].
  simpl. rewrite !column_fold_other by assumption.
  unfold add_prediction. split.
  - rewrite column_set_ne by congruence. apply column_set_eq.
  - apply column_set_eq.
Qed.

Lemma cells_rsub_lookup a : forall v r i p y,
  cells_rsub a v = Ok r -> a !! i = Some p -> v !! i = Some y ->
  exists e, r !! i = Some e /\ cell_rsub p y = Ok e.
Proof.
  induction a as [|x a IH]; intros v r i p y Hr Hp Hy; [by destruct i|].
  destruct v as [|c v]; [by destruct i|]. simpl in Hr.
  destruct (cell_rsub x c) as [e0|] eqn:He0; [|discriminate].
  destruct (cells_rsub a v) as [r0|] eqn:Hr0; [|discriminate].
  injection Hr as <-.
  destruct i as [|i]; simpl in *.
  - injection Hp as <-. injection Hy as <-. eauto.
  - eapply IH; eauto.
Qed.

Lemma cells_rsub_length a : forall v r,
  cells_rsub a v = Ok r -> length a = length v -> length r = length a.
Proof.
  induction a as [|x a IH]; intros v r Hr Hlen; simpl in Hr.
  - by injection Hr as <-.
  - destruct v as [|c v]; [discriminate|].
    destruct (cell_rsub x c); [|discriminate].
    destruct (cells_rsub a v) as [r0|] eqn:Hr0; [|discriminate].
    injection Hr as <-. simpl. f_equal. apply (IH v); auto.
Qed.

Lemma candidate_labels_names outs :
  candidate_labels outs
  = flat_map (fun name => [prediction_label name; error_label name]) (map o_name outs).
Proof. induction outs; simpl; [done|]. unfold candidate_labels in *. simpl. congruence. Qed.

Lemma tree_labels_distinct outs :
  map o_name outs = tree_names -> NoDup (candidate_labels outs).
Proof.
  intros H. rewrite candidate_labels_names, H.
  apply (bool_decide_unpack _). vm_compute. exact I.
Qed.

Lemma ready_tree_names t w Xtr Xv outs :
  ready t w Xtr Xv outs -> dict_keys (models t) = tree_names ->
  map o_name outs = tree_names.
Proof.
  intros Hready <-. unfold dict_keys.
  rewrite (ready_models _ _ _ _ _ Hready), map_map. reflexivity.
Qed.

(** C2: in the prediction table [benchmark] writes for a constructed
    trainer, the [SalePrice] column is the validation target, a candidate's
    prediction column is what it predicted and its error column is, row for
    row, the predicted value minus the target of that row. *)
Theorem residual_is_prediction_minus_target
    train ratio dp stratify n w0 t w Xtr Xv outs pred_file o :
  Trainer_init train ratio dp stratify n w0 = (Ok t, w) ->
  ready t w Xtr Xv outs ->
  o ∈ outs ->
  exists cols err,
    files (snd (snd (Trainer_benchmark MODEL_DIR pred_file (t, w)))) !! pred_file
    = Some (Csv cols)
    /\ dict_get "SalePrice" cols = Some (s_values (y_valid t))
    /\ dict_get (prediction_label (o_name o)) cols = Some (map Num (o_pred o))
    /\ dict_get (error_label (o_name o)) cols = Some err
    /\ length err = length (o_pred o)
    /\ (forall i p y,
          o_pred o !! i = Some p -> s_values (y_valid t) !! i = Some y ->
          exists e, err !! i = Some e /\ cell_rsub p y = Ok e)
    /\ (forall i p v,
          o_pred o !! i = Some p -> s_values (y_valid t) !! i = Some (Num v) ->
          err !! i = Some (Num (PrimFloat.sub p v))).
Proof.
  intros Hinit Hready Ho.
  destruct (init_trainer _ _ _ _ _ _ _ _ Hinit) as (_ & _ & _ & Hkeys & _).
  pose proof (tree_labels_distinct outs (ready_tree_names _ _ _ _ _ Hready Hkeys)) as Hnd.
  rewrite (benchmark_spec t w Xtr Xv outs pred_file Hready).
  unfold after_benchmark. simpl snd. simpl files.
  exists (df_columns (prediction_table t Xv outs)),
         (residuals (o_pred o) (s_values (y_valid t))).
  destruct (column_fold_candidate (s_values (y_valid t)) outs
              (set_column Xv "SalePrice" (s_values (y_valid t))) o Hnd Ho)
    as [Hpred Herr].
  assert (Hres : cells_rsub (o_pred o) (s_values (y_valid t))
                 = Ok (residuals (o_pred o) (s_values (y_valid t)))).
  { apply cells_rsub_residuals. exact (ready_numeric _ _ _ _ _ Hready). }
  assert (Hlen : length (o_pred o) = length (s_values (y_valid t))).
  { rewrite (ready_target _ _ _ _ _ Hready).
    pose proof (ready_lengths _ _ _ _ _ Hready) as Hl.
    rewrite Forall_forall in Hl. by apply Hl. }
  split; [apply lookup_insert_eq|].
  split. { change (column "SalePrice" (prediction_table t Xv outs) = Some (s_values (y_valid t))).
           unfold prediction_table.
           rewrite column_fold_other by apply target_not_candidate_label.
           apply column_set_eq. }
  split; [exact Hpred|]. split; [exact Herr|].
  split; [by apply (cells_rsub_length _ _ _ Hres)|].
  split.
  - intros i p y Hp Hy. by apply (cells_rsub_lookup _ _ _ _ _ _ Hres Hp Hy).
  - intros i p v Hp Hy.
    destruct (cells_rsub_lookup _ _ _ _ _ _ Hres Hp Hy) as (e & He & Hsub).
    simpl in Hsub. congruence.
Qed.

(** *** Persisted predictors *)

Lemma dump_predictor_spec t w model name m :
  estimators w !! model = Some m ->
  Trainer_dump_predictor MODEL_DIR model name (t, w)
  = (Ok tt,
     (t, set_stdout
           (stdout w ++ ["dumped trained predictor " +:+ name +:+ " to file "
                         +:+ predictor_file t name])
           (set_files
              (<[predictor_file t name := PredictorPickle (Predictor.mk _ m (features t))]>
                 (files w)) w))).
Proof.
  intros Hm.
  unfold Trainer_dump_predictor, joblib_dump, print, in_world, get_self,
    estimator_at, bind, gets, modify.
  simpl. rewrite Hm. reflexivity.
Qed.

Lemma os_path_join_relative a c b :
  c <> "/"%char ->
  os_path_join a (String c b)
  = a +:+ (if (String.eqb a "" || ends_with_slash a)%bool then "" else "/")
      +:+ String c b.
Proof.
  intros Hc. unfold os_path_join.
  destruct (Ascii.eqb_spec c "/") as [->|_]; [done|].
  assert (Hjoin : (if (String.eqb a "" || ends_with_slash a)%bool
                   then a +:+ String c b else a +:+ "/" +:+ String c b)
                  = a +:+ (if (String.eqb a "" || ends_with_slash a)%bool
                           then "" else "/") +:+ String c b).
  { destruct (String.eqb a "" || ends_with_slash a)%bool; reflexivity. }
  destruct c as [[] [] [] [] [] [] [] []]; try exact Hjoin. done.
Qed.

Lemma tree_file_names :
  map rm_space tree_names = ["boosted_regression_tree"; "random_forest"; "xgboost"].
Proof. reflexivity. Qed.

(** C7: [dump_predictor] leaves the trainer as it is and writes one file,
    holding the estimator object bundled with the trainer's feature list;
    the file is named by the candidate's name with spaces replaced by
    underscores and lowercased, then the ensemble size, then [.pkl], joined
    to the model directory, and for the configured candidates that path
    lies in the model directory. *)
Theorem dump_predictor_writes_named_file t w model name m :
  estimators w !! model = Some m ->
  fst (Trainer_dump_predictor MODEL_DIR model name (t, w)) = Ok tt
  /\ fst (snd (Trainer_dump_predictor MODEL_DIR model name (t, w))) = t
  /\ files (snd (snd (Trainer_dump_predictor MODEL_DIR model name (t, w))))
     = <[os_path_join MODEL_DIR
           (str_lower (str_replace " " "_" name) +:+ str_int (n_estimator t) +:+ ".pkl")
         := PredictorPickle (Predictor.mk _ m (features t))]> (files w)
  /\ (name ∈ tree_names ->
      os_path_join MODEL_DIR (rm_space name +:+ str_int (n_estimator t) +:+ ".pkl")
      = MODEL_DIR
          +:+ (if (String.eqb MODEL_DIR "" || ends_with_slash MODEL_DIR)%bool
               then "" else "/")
          +:+ (rm_space name +:+ str_int (n_estimator t) +:+ ".pkl")).
Proof.
  intros Hm. rewrite (dump_predictor_spec t w model name m Hm). simpl.
  repeat split.
  intros Hname. unfold tree_names in Hname.
  repeat (apply elem_of_cons in Hname as [->|Hname]);
    [| | |by apply elem_of_nil in Hname];
    cbv [rm_space str_lower str_replace map_string]; simpl String.append;
    apply os_path_join_relative; discriminate.
Qed.

Lemma column_set_present df l l' v :
  is_Some (column l df) -> is_Some (column l (set_column df l' v)).
Proof.
  intros H. destruct (String.eqb_spec l' l) as [->|Hne].
  - rewrite column_set_eq. eauto.
  - by rewrite column_set_ne.
Qed.

Lemma column_fold_present y outs : forall df l,
  is_Some (column l df) -> is_Some (column l (fold_left (add_prediction y) outs df)).
Proof.
  induction outs as [|o outs IH]; intros df l H; simpl; [done|].
  apply IH. unfold add_prediction. by do 2 apply column_set_present.
Qed.

Lemma column_fold_candidate_present y outs : forall df o,
  o ∈ outs ->
  is_Some (column (prediction_label (o_name o)) (fold_left (add_prediction y) outs df))
  /\ is_Some (column (error_label (o_name o)) (fold_left (add_prediction y) outs df)).
Proof.
  induction outs as [|o' outs IH]; intros df o Ho; [by inversion Ho|].
  apply elem_of_cons in Ho as [->|Ho]; [|by apply IH].
  simpl. split; apply column_fold_present; unfold add_prediction.
  - apply column_set_present. rewrite column_set_eq. eauto.
  - rewrite column_set_eq. eauto.
Qed.

Lemma fold_dump_file_present t outs : forall f path,
  is_Some (f !! path) -> is_Some (fold_left (dump_file t) outs f !! path).
Proof.
  induction outs as [|o outs IH]; intros f path H; simpl; [done|].
  apply IH. unfold dump_file.
  destruct (decide (predictor_file t (o_name o) = path)) as [->|Hne].
  - rewrite lookup_insert_eq. eauto.
  - by rewrite lookup_insert_ne.
Qed.

Lemma fold_dump_file_candidate t outs : forall f o,
  o ∈ outs -> is_Some (fold_left (dump_file t) outs f !! predictor_file t (o_name o)).
Proof.
  induction outs as [|o' outs IH]; intros f o Ho; [by inversion Ho|].
  apply elem_of_cons in Ho as [->|Ho]; [|by apply IH].
  simpl. apply fold_dump_file_present. unfold dump_file.
  rewrite lookup_insert_eq. eauto.
Qed.

(** C10: [eval] fits the estimator, writes its predictor file and records
    its predictions before it computes the metric: whatever the metric does,
    the state [eval] leaves holds the fitted predictor's file and the
    predictions.  So when the metric raises [ValueError], [eval] returns
    NaN, the predictor file is there, and the prediction table [benchmark]
    writes has the candidate's prediction and error columns. *)
Theorem eval_persists_before_scoring t w Xtr Xv outs o pred_file :
  ready t w Xtr Xv outs ->
  o ∈ outs ->
  snd (Trainer_eval MODEL_DIR (o_model o) (o_name o) (t, w))
  = after_eval t w (o_model o) (o_name o) (o_fitted o) (o_pred o)
  /\ files (snd (snd (Trainer_eval MODEL_DIR (o_model o) (o_name o) (t, w))))
       !! predictor_file t (o_name o)
     = Some (PredictorPickle (Predictor.mk _ (o_fitted o) (features t)))
  /\ dict_get (o_name o)
       (predictions (fst (snd (Trainer_eval MODEL_DIR (o_model o) (o_name o) (t, w)))))
     = Some (o_pred o)
  /\ (mean_squared_log_error (y_valid t) (o_pred o) = Raise ValueError ->
      fst (Trainer_eval MODEL_DIR (o_model o) (o_name o) (t, w)) = Ok nan
      /\ is_Some (files (snd (snd (Trainer_benchmark MODEL_DIR pred_file (t, w))))
                    !! predictor_file t (o_name o))
      /\ exists cols,
           files (snd (snd (Trainer_benchmark MODEL_DIR pred_file (t, w)))) !! pred_file
           = Some (Csv cols)
           /\ is_Some (dict_get (prediction_label (o_name o)) cols)
           /\ is_Some (dict_get (error_label (o_name o)) cols)).
Proof.
  intros Hready Ho.
  assert (Hruns : runs t w Xtr Xv o).
  { pose proof (ready_runs _ _ _ _ _ Hready) as Hr.
    rewrite Forall_forall in Hr. by apply Hr. }
  destruct Hruns as ((m & Hm & Hfit) & Hpred & Herr).
  rewrite (eval_spec t w (o_model o) (o_name o) m Xtr Xv _ _ Hm
             (ready_train _ _ _ _ _ Hready) (ready_valid _ _ _ _ _ Hready) Hfit Hpred).
  simpl snd. simpl fst.
  split; [reflexivity|].
  split; [simpl; apply lookup_insert_eq|].
  split; [simpl; apply dict_get_set_eq|].
  intros Hmetric. rewrite Hmetric. split; [reflexivity|].
  rewrite (benchmark_spec t w Xtr Xv outs pred_file Hready).
  unfold after_benchmark. simpl snd. simpl files. split.
  - destruct (decide (pred_file = predictor_file t (o_name o))) as [->|Hne].
    + rewrite lookup_insert_eq. eauto.
    + rewrite lookup_insert_ne by exact Hne. by apply fold_dump_file_candidate.
  - exists (df_columns (prediction_table t Xv outs)).
    split; [apply lookup_insert_eq|].
    by apply (column_fold_candidate_present (s_values (y_valid t)) outs).
Qed.

(** *** The columns a trainer is built on *)

Lemma select_columns_names cols : forall labels r,
  select_columns cols labels = Ok r -> map fst r = labels.
Proof.
  induction labels as [|l labels IH]; intros r Hr; simpl in Hr.
  - by injection Hr as <-.
  - destruct (dict_get l cols); [|discriminate].
    destruct (select_columns cols labels) as [r0|]; [|discriminate].
    injection Hr as <-. simpl. f_equal. by apply IH.
Qed.

Lemma map_fst_filter {A B} (P : A -> bool) (l : list (A * B)) :
  map fst (List.filter (fun c => P (fst c)) l) = List.filter P (map fst l).
Proof.
  induction l as [|[a b] l IH]; simpl; [done|].
  destruct (P a); simpl; congruence.
Qed.

Lemma select_X_y_columns train feats X y :
  select_X_y train feats = Ok (X, y) ->
  column_names X = List.filter (fun f => negb (String.eqb f "SalePrice")) feats
  /\ df_index X = df_index train
  /\ s_index y = df_index train.
Proof.
  unfold select_X_y, getitem_list, drop_column, getitem, column.
  destruct (select_columns (df_columns train) (feats ++ ["SalePrice"])) as [cols|] eqn:Hsel;
    [|discriminate].
  simpl. destruct (dict_get "SalePrice" cols) as [c|]; [|discriminate].
  intros H. injection H as <- <-. simpl. repeat split.
  unfold column_names. simpl.
  rewrite (map_fst_filter (fun f => negb (String.eqb f "SalePrice"))).
  rewrite (select_columns_names _ _ _ Hsel).
  rewrite List.filter_app. simpl. apply app_nil_r.
Qed.

(** C3: the feature list a constructed trainer holds is the one of the
    preprocess artifact; the frame that is split into the training and the
    validation frame is the selection of those features from the data (the
    target aside); each candidate is fitted on that training frame and
    scored on that validation frame; and the predictor [eval] persists for
    it bundles the fitted estimator with that same feature list. *)
Theorem fitted_features_are_persisted_features
    train ratio dp stratify n w0 t w Xtr Xv outs o :
  Trainer_init train ratio dp stratify n w0 = (Ok t, w) ->
  ready t w Xtr Xv outs ->
  o ∈ outs ->
  features t = DataPrep.features dp
  /\ (exists X y key g,
        select_X_y train (features t) = Ok (X, y)
        /\ column_names X
           = List.filter (fun f => negb (String.eqb f "SalePrice")) (features t)
        /\ fst (train_test_split X y ratio key (Some SEED) g)
           = Ok (Xtr, Xv, y_train t, y_valid t))
  /\ (exists m, estimators w !! o_model o = Some m
                /\ fit m Xtr (y_train t) = Ok (o_fitted o))
  /\ predict (o_fitted o) Xv = Ok (o_pred o)
  /\ files (snd (snd (Trainer_eval MODEL_DIR (o_model o) (o_name o) (t, w))))
       !! predictor_file t (o_name o)
     = Some (PredictorPickle (Predictor.mk _ (o_fitted o) (DataPrep.features dp))).
Proof.
  intros Hinit Hready Ho.
  destruct (init_inv _ _ _ _ _ _ _ _ Hinit)
    as (X & y & b & [[[Xtr' Xv'] ytr] yv] & g & HXy & _ & Hsplit & Hc).
  destruct (constructed_trainer _ _ _ _ _ _ _ _ _ _ Hc)
    as (_ & Hfeat & Hytr & Hyv & _ & _ & Htr & Hv & _).
  assert (Xtr' = Xtr) as ->.
  { pose proof (ready_train _ _ _ _ _ Hready). congruence. }
  assert (Xv' = Xv) as ->.
  { pose proof (ready_valid _ _ _ _ _ Hready). congruence. }
  assert (Hruns : runs t w Xtr Xv o).
  { pose proof (ready_runs _ _ _ _ _ Hready) as Hr.
    rewrite Forall_forall in Hr. by apply Hr. }
  destruct Hruns as ((m & Hm & Hfit) & Hpred & Herr).
  split; [exact Hfeat|]. split.
  { exists X, y, (if b then None else stratify), (np_random w0).
    rewrite Hfeat. split; [exact HXy|]. split.
    - by destruct (select_X_y_columns _ _ _ _ HXy).
    - rewrite Hsplit, Hytr, Hyv. reflexivity. }
  split; [eauto|]. split; [exact Hpred|].
  rewrite (eval_spec t w (o_model o) (o_name o) m Xtr Xv _ _ Hm
             (ready_train _ _ _ _ _ Hready) (ready_valid _ _ _ _ _ Hready) Hfit Hpred).
  simpl. rewrite Hfeat. apply lookup_insert_eq.
Qed.

(** *** The split *)

Lemma constructed_partitions n feats Xtr Xv ytr yv g w0 :
  partitions (Ok (fst (constructed n feats (Xtr, Xv, ytr, yv) g w0)),
              snd (constructed n feats (Xtr, Xv, ytr, yv) g w0))
  = Ok (Some Xtr, Some Xv, ytr, yv).
Proof.
  destruct (constructed n feats (Xtr, Xv, ytr, yv) g w0) as [t w] eqn:Hc.
  symmetry in Hc.
  destruct (constructed_trainer _ _ _ _ _ _ _ _ _ _ Hc)
    as (_ & _ & Hytr & Hyv & _ & _ & Htr & Hv & _).
  unfold partitions. simpl. by rewrite Htr, Hv, Hytr, Hyv.
Qed.

Lemma init_partitions train ratio dp stratify n w0 :
  partitions (Trainer_init train ratio dp stratify n w0)
  = match select_X_y train (DataPrep.features dp) with
    | Raise e => Raise e
    | Ok (X, y) =>
        match py_not stratify with
        | Raise e => Raise e
        | Ok b =>
            match fst (train_test_split X y ratio (if b then None else stratify)
                         (Some SEED) (np_random w0)) with
            | Raise e => Raise e
            | Ok (Xtr, Xv, ytr, yv) => Ok (Some Xtr, Some Xv, ytr, yv)
            end
        end
    end.
Proof.
  rewrite init_eq.
  destruct (select_X_y train (DataPrep.features dp)) as [[X y]|e]; [|reflexivity].
  destruct (py_not stratify) as [b|e]; [|reflexivity].
  destruct (train_test_split X y ratio (if b then None else stratify) (Some SEED)
              (np_random w0)) as [[[[[Xtr Xv] ytr] yv]|e] g]; [|reflexivity].
  simpl fst at 1. apply constructed_partitions.
Qed.

(** C5: the seed of the split is the constant 1, passed in both branches of
    the constructor; so, the library's split being a function of its
    arguments once it is given an integer seed, two constructions on the
    same data, fraction, feature list and key hold the same partitions (or
    raise the same exception), whatever the world they run in and whatever
    the ensemble size. *)
Theorem split_is_deterministic train ratio dp stratify n1 n2 w1 w2 :
  seeded_split ->
  SEED = 1
  /\ partitions (Trainer_init train ratio dp stratify n1 w1)
     = partitions (Trainer_init train ratio dp stratify n2 w2).
Proof.
  intros Hseeded. split; [reflexivity|].
  rewrite !init_partitions.
  destruct (select_X_y train (DataPrep.features dp)) as [[X y]|e]; [|reflexivity].
  destruct (py_not stratify) as [b|e]; [|reflexivity].
  by rewrite (Hseeded X y ratio (if b then None else stratify) SEED
                (np_random w1) (np_random w2)).
Qed.

(** *** The stratification key *)

Lemma init_without_key train ratio dp n w0 X y :
  select_X_y train (DataPrep.features dp) = Ok (X, y) ->
  partitions (Trainer_init train ratio dp None n w0)
  = match fst (train_test_split X y ratio None (Some SEED) (np_random w0)) with
    | Raise e => Raise e
    | Ok (Xtr, Xv, ytr, yv) => Ok (Some Xtr, Some Xv, ytr, yv)
    end.
Proof. intros HXy. rewrite init_partitions, HXy. reflexivity. Qed.

Lemma init_with_list_key train ratio dp n w0 X y c key :
  select_X_y train (DataPrep.features dp) = Ok (X, y) ->
  partitions (Trainer_init train ratio dp (Some (PyList (c :: key))) n w0)
  = match fst (train_test_split X y ratio (Some (PyList (c :: key))) (Some SEED)
                 (np_random w0)) with
    | Raise e => Raise e
    | Ok (Xtr, Xv, ytr, yv) => Ok (Some Xtr, Some Xv, ytr, yv)
    end.
Proof. intros HXy. rewrite init_partitions, HXy. reflexivity. Qed.

Lemma init_with_empty_list_key train ratio dp n w0 :
  Trainer_init train ratio dp (Some (PyList [])) n w0
  = Trainer_init train ratio dp None n w0.
Proof. rewrite !init_eq. reflexivity. Qed.

(** C6, at a key that is a pandas Series: the constructor raises
    [ValueError] at [if not stratify] (or the [KeyError] of the column
    selection before it) and makes no split. *)
Theorem init_with_series_key_raises train ratio dp key n w0 :
  fst (Trainer_init train ratio dp (Some (PdSeries key)) n w0)
  = match select_X_y train (DataPrep.features dp) with
    | Ok _ => Raise ValueError
    | Raise e => Raise e
    end
  /\ np_random (snd (Trainer_init train ratio dp (Some (PdSeries key)) n w0))
     = np_random w0
  /\ frames (snd (Trainer_init train ratio dp (Some (PdSeries key)) n w0))
     = frames w0.
Proof.
  rewrite init_eq.
  destruct (select_X_y train (DataPrep.features dp)) as [[X y]|e]; simpl; auto.
Qed.

(** *** The frame of [retrieve_predictions] *)

Lemma only_frame_refl l s : only_frame l s s.
Proof. unfold only_frame. auto 10. Qed.

Lemma only_frame_trans l s1 s2 s3 :
  only_frame l s1 s2 -> only_frame l s2 s3 -> only_frame l s1 s3.
Proof.
  intros (H1 & H2 & H3 & H4 & H5 & H6) (K1 & K2 & K3 & K4 & K5 & K6).
  unfold only_frame.
  rewrite K1, K2, K3, K4, K5.
  do 5 (split; [assumption|]).
  intros l' Hl'. rewrite K6 by exact Hl'. by apply H6.
Qed.

Lemma bind_only_frame {A B} l (c : method A) (k : A -> method B) :
  (forall s, only_frame l s (snd (c s))) ->
  (forall a s, only_frame l s (snd (k a s))) ->
  forall s, only_frame l s (snd (bind c k s)).
Proof.
  intros Hc Hk s. unfold bind. specialize (Hc s).
  destruct (c s) as [[a|e] s']; simpl in *.
  - eapply only_frame_trans; [exact Hc | apply Hk].
  - exact Hc.
Qed.

Lemma for_loop_only_frame {A B} l (body : A -> B -> method B) xs :
  (forall x acc s, only_frame l s (snd (body x acc s))) ->
  forall acc s, only_frame l s (snd (for_loop xs body acc s)).
Proof.
  intros Hbody. induction xs as [|x xs IH]; intros acc s; simpl.
  - apply only_frame_refl.
  - apply bind_only_frame; [apply Hbody | intros; apply IH].
Qed.

Lemma frame_update_only_frame l f s :
  only_frame l s (snd (in_world (frame_update l f) s)).
Proof.
  destruct s as [t w]. unfold in_world, frame_update, bind, frame_at, lift_result, modify.
  simpl.
  destruct (frames w !! l) as [df|]; [|apply only_frame_refl].
  destruct (f df) as [df'|e]; [|apply only_frame_refl].
  unfold only_frame. simpl. do 5 (split; [reflexivity|]).
  intros l' Hl'. by rewrite lookup_insert_ne.
Qed.

Lemma frame_at_only_frame l l' s :
  only_frame l s (snd (in_world (frame_at l') s)).
Proof.
  destruct s as [t w]. unfold in_world, frame_at. simpl.
  destruct (frames w !! l'); apply only_frame_refl.
Qed.

Lemma retrieve_predictions_only_frame s :
  only_frame (X_valid (fst s)) s (snd (Trainer_retrieve_predictions s)).
Proof.
  unfold Trainer_retrieve_predictions.
  unfold bind at 1, get_self at 1, gets at 1.
  generalize (X_valid (fst s)) at 1 2 3 4 5 6 as l.
  generalize (y_valid (fst s)) as y. generalize (dict_keys (models (fst s))) as names.
  intros names y l. revert s.
  apply bind_only_frame; [apply frame_update_only_frame | intros _].
  apply bind_only_frame; [| intros; apply only_frame_refl].
  apply for_loop_only_frame. intros model [].
  apply bind_only_frame; [intros; apply only_frame_refl | intros self].
  apply bind_only_frame; [intros; apply only_frame_refl | intros p].
  apply bind_only_frame; [apply frame_update_only_frame | intros _].
  apply bind_only_frame; [intros; apply only_frame_refl | intros p'].
  apply bind_only_frame; [apply frame_at_only_frame | intros df].
  apply bind_only_frame; [intros; apply only_frame_refl | intros sale_price].
  apply bind_only_frame; [intros; apply only_frame_refl | intros err].
  apply frame_update_only_frame.
Qed.

Lemma retrieve_predictions_returns_alias s l :
  fst (Trainer_retrieve_predictions s) = Ok l -> l = X_valid (fst s).
Proof.
  unfold Trainer_retrieve_predictions.
  unfold bind at 1, get_self at 1, gets at 1.
  unfold bind at 1.
  match goal with |- context [match ?c with _ => _ end] => destruct c as [[[]|e] s1] end;
    [|discriminate].
  unfold bind at 1.
  match goal with |- context [match ?c with _ => _ end] => destruct c as [[[]|e] s2] end;
    [|discriminate].
  unfold ret. simpl. congruence.
Qed.

Lemma index_fold_add_prediction y outs : forall df,
  df_index (fold_left (add_prediction y) outs df) = df_index df.
Proof.
  induction outs as [|o outs IH]; intros df; simpl; [reflexivity|].
  rewrite IH. reflexivity.
Qed.

(** C9: [retrieve_predictions] returns the very object [self.X_valid] and
    leaves the trainer's fields, the estimators, the files, the output and
    every other table as they were; after [benchmark] the trainer's
    validation table, still at the same place, holds the target column,
    every column it had before and, for each candidate, a prediction column
    and an error column. *)
Theorem benchmark_mutates_validation_table_in_place t w Xtr Xv outs pred_file :
  ready t w Xtr Xv outs ->
  (forall s,
      only_frame (X_valid (fst s)) s (snd (Trainer_retrieve_predictions s))
      /\ forall l, fst (Trainer_retrieve_predictions s) = Ok l -> l = X_valid (fst s))
  /\ X_valid (fst (snd (Trainer_benchmark MODEL_DIR pred_file (t, w)))) = X_valid t
  /\ (forall l, l <> X_valid t ->
        frames (snd (snd (Trainer_benchmark MODEL_DIR pred_file (t, w)))) !! l
        = frames w !! l)
  /\ exists table,
       frames (snd (snd (Trainer_benchmark MODEL_DIR pred_file (t, w)))) !! X_valid t
       = Some table
       /\ df_index table = df_index Xv
       /\ column "SalePrice" table = Some (s_values (y_valid t))
       /\ (forall c, is_Some (column c Xv) -> is_Some (column c table))
       /\ (forall c, c <> "SalePrice" -> c ∉ candidate_labels outs ->
             column c table = column c Xv)
       /\ forall o, o ∈ outs ->
            is_Some (column (prediction_label (o_name o)) table)
            /\ is_Some (column (error_label (o_name o)) table).
Proof.
  intros Hready.
  split.
  { intros s. split.
    - apply retrieve_predictions_only_frame.
    - apply retrieve_predictions_returns_alias. }
  rewrite (benchmark_spec _ _ _ _ _ pred_file Hready).
  unfold after_benchmark. simpl.
  split; [reflexivity|].
  split; [intros l Hl; by rewrite lookup_insert_ne|].
  exists (prediction_table t Xv outs).
  split; [by rewrite lookup_insert_eq|].
  unfold prediction_table.
  split; [by rewrite index_fold_add_prediction|].
  split.
  { rewrite column_fold_other by apply target_not_candidate_label.
    apply column_set_eq. }
  split.
  { intros c Hc. by apply column_fold_present, column_set_present. }
  split.
  { intros c Hc Hlab. rewrite column_fold_other by exact Hlab.
    apply column_set_ne. congruence. }
  intros o Ho. by apply column_fold_candidate_present.
Qed.

(** *** The loop over the ensemble sizes *)

Lemma concat_first_error_table t outs :
  pd_concat (mkDataFrame [] []) (error_table t outs) = error_table t outs.
Proof. reflexivity. Qed.

Lemma concat_error_tables t1 t2 outs1 outs2 :
  column_names (pd_concat (error_table t1 outs1) (error_table t2 outs2))
  = ["model"; "mean_squared_log_error"; "n_estimator"]
  /\ rows (pd_concat (error_table t1 outs1) (error_table t2 outs2))
     = map (error_row (n_estimator t1)) outs1 ++ map (error_row (n_estimator t2)) outs2.
Proof.
  split; [reflexivity|].
  pose (xs := map (pair (n_estimator t1)) outs1 ++ map (pair (n_estimator t2)) outs2).
  pose (fs := [("model", fun x : Z * outcome => Str (o_name (snd x)));
               ("mean_squared_log_error", fun x => Num (o_error (snd x)));
               ("n_estimator", fun x => Int (fst x))]).
  transitivity (map (fun x => map (fun lf : string * (Z * outcome -> cell) => snd lf x) fs) xs).
  - rewrite <- (rows_of_columns xs
                  (range_index (length outs1) ++ range_index (length outs2)) fs).
    + f_equal. unfold pd_concat, error_table, xs, fs. simpl.
      rewrite !repeat_as_map, !map_app, !map_map. reflexivity.
    + unfold xs. rewrite !length_app, !length_map, !length_range_index. reflexivity.
  - unfold xs, fs. rewrite map_app, !map_map. reflexivity.
Qed.

Lemma main_loop_two_sizes train dp n1 n2 w0 t1 w1 Xtr1 Xv1 outs1 t2 w2 Xtr2 Xv2 outs2 :
  let ratio := 0x1.999999999999ap-4%float in
  let pred_file n := os_path_join RES_DIR (str_int n +:+ "_est_validation.csv") in
  Trainer_init train ratio dp None n1 w0 = (Ok t1, w1) ->
  ready t1 w1 Xtr1 Xv1 outs1 ->
  Trainer_init train ratio dp None n2
    (snd (snd (Trainer_benchmark MODEL_DIR (pred_file n1) (t1, w1)))) = (Ok t2, w2) ->
  ready t2 w2 Xtr2 Xv2 outs2 ->
  main_loop MODEL_DIR RES_DIR train dp [n1; n2] (mkDataFrame [] []) w0
  = (Ok (pd_concat (error_table t1 outs1) (error_table t2 outs2)),
     snd (snd (Trainer_benchmark MODEL_DIR (pred_file n2) (t2, w2)))).
Proof.
  intros ratio pred_file H1 R1 H2 R2.
  unfold main_loop. simpl for_loop.
  unfold bind at 1. unfold bind at 1. fold ratio. rewrite H1.
  unfold bind at 1. unfold run_method at 1. fold (pred_file n1).
  rewrite (benchmark_spec _ _ _ _ _ (pred_file n1) R1) in H2 |- *.
  cbv beta iota. cbn [snd] in H2.
  unfold ret at 1. rewrite concat_first_error_table.
  unfold bind at 1. unfold bind at 1. rewrite H2.
  unfold bind at 1. unfold run_method at 1. fold (pred_file n2).
  rewrite (benchmark_spec _ _ _ _ _ (pred_file n2) R2).
  reflexivity.
Qed.

(** C8: a run of the loop over the ensemble sizes 100 and 150 on the same
    training data returns a table of three columns (name, error, size) whose
    rows are those of the first benchmark followed by those of the second;
    each candidate has one row in each block, at the same place, with the
    same name, the tag 100 in the first and 150 in the second. *)
Theorem two_sizes_give_two_rows_per_candidate
    train dp w0 t1 w1 Xtr1 Xv1 outs1 t2 w2 Xtr2 Xv2 outs2 :
  Trainer_init train 0x1.999999999999ap-4%float dp None 100 w0 = (Ok t1, w1) ->
  ready t1 w1 Xtr1 Xv1 outs1 ->
  Trainer_init train 0x1.999999999999ap-4%float dp None 150
    (snd (snd (Trainer_benchmark MODEL_DIR
                 (os_path_join RES_DIR (str_int 100 +:+ "_est_validation.csv"))
                 (t1, w1)))) = (Ok t2, w2) ->
  ready t2 w2 Xtr2 Xv2 outs2 ->
  exists metrics,
    fst (main_loop MODEL_DIR RES_DIR train dp [100; 150] (mkDataFrame [] []) w0)
    = Ok metrics
    /\ column_names metrics = ["model"; "mean_squared_log_error"; "n_estimator"]
    /\ rows metrics = map (error_row 100) outs1 ++ map (error_row 150) outs2
    /\ map o_name outs1 = tree_names
    /\ map o_name outs2 = tree_names
    /\ length (rows metrics) = (2 * length tree_names)%nat
    /\ forall i name, tree_names !! i = Some name ->
         exists e1 e2,
           rows metrics !! i = Some [Str name; Num e1; Int 100]
           /\ rows metrics !! (length tree_names + i)%nat
              = Some [Str name; Num e2; Int 150].
Proof.
  intros H1 R1 H2 R2.
  destruct (init_trainer _ _ _ _ _ _ _ _ H1) as (N1 & _ & _ & K1 & _).
  destruct (init_trainer _ _ _ _ _ _ _ _ H2) as (N2 & _ & _ & K2 & _).
  pose proof (ready_tree_names _ _ _ _ _ R1 K1) as T1.
  pose proof (ready_tree_names _ _ _ _ _ R2 K2) as T2.
  exists (pd_concat (error_table t1 outs1) (error_table t2 outs2)).
  rewrite (main_loop_two_sizes train dp 100 150 w0 t1 w1 Xtr1 Xv1 outs1
             t2 w2 Xtr2 Xv2 outs2 H1 R1 H2 R2).
  destruct (concat_error_tables t1 t2 outs1 outs2) as [Hnames Hrows].
  rewrite Hnames, Hrows, N1, N2.
  assert (L1 : length outs1 = length tree_names)
    by (rewrite <- T1; by rewrite length_map).
  assert (L2 : length outs2 = length tree_names)
    by (rewrite <- T2; by rewrite length_map).
  do 5 (split; [first [reflexivity | assumption]|]).
  split.
  { rewrite length_app, !length_map, L1, L2. lia. }
  intros i name Hi.
  assert (Hlt : (i < length tree_names)%nat) by (by eapply lookup_lt_Some).
  destruct (lookup_lt_is_Some_2 outs1 i) as [o1 Ho1]; [lia|].
  destruct (lookup_lt_is_Some_2 outs2 i) as [o2 Ho2]; [lia|].
  assert (E1 : o_name o1 = name).
  { pose proof (f_equal (fun l => l !! i) T1) as E. simpl in E.
    change (map o_name outs1) with (o_name <$> outs1) in E.
    rewrite list_lookup_fmap, Ho1, Hi in E. simpl in E. congruence. }
  assert (E2 : o_name o2 = name).
  { pose proof (f_equal (fun l => l !! i) T2) as E. simpl in E.
    change (map o_name outs2) with (o_name <$> outs2) in E.
    rewrite list_lookup_fmap, Ho2, Hi in E. simpl in E. congruence. }
  exists (o_error o1), (o_error o2). split.
  - rewrite lookup_app_l by (rewrite length_map; lia).
    change (map (error_row 100) outs1) with (error_row 100 <$> outs1).
    rewrite list_lookup_fmap, Ho1. simpl. unfold error_row. by rewrite E1.
  - rewrite lookup_app_r by (rewrite length_map; lia).
    rewrite length_map, L1.
    replace (length tree_names + i - length tree_names)%nat with i by lia.
    change (map (error_row 150) outs2) with (error_row 150 <$> outs2).
    rewrite list_lookup_fmap, Ho2. simpl. unfold error_row. by rewrite E2.
Qed.

End Properties.

(** ** The properties on the small library

    The hypotheses of the theorems above hold of the trainer built on
    [Toy.library]: each theorem is applied to it. *)

#[local] Existing Instance Toy.library.

Lemma toy_init :
  Trainer_init Toy.train Toy.ratio Toy.dp None 100 Toy.world0
  = (Ok Toy.trainer, Toy.world1).
Proof. vm_compute. reflexivity. Qed.

Lemma toy_init150 :
  Trainer_init Toy.train Toy.ratio Toy.dp None 150
    (snd (snd (Trainer_benchmark Toy.model_dir
                 (os_path_join Toy.res_dir (str_int 100 +:+ "_est_validation.csv"))
                 (Toy.trainer, Toy.world1))))
  = (Ok Toy.trainer150, Toy.world3).
Proof. vm_compute. reflexivity. Qed.

Ltac toy_runs c :=
  split;
  [ exists (c, false); split; vm_compute; reflexivity
  | split; vm_compute; reflexivity ].

Ltac toy_each tac :=
  apply Forall_cons_2;
  [ tac
  | apply Forall_cons_2; [ tac | apply Forall_cons_2; [ tac | apply Forall_nil_2 ] ] ].

Lemma toy_ready :
  ready Toy.trainer Toy.world1 Toy.X_train_rows Toy.X_valid_rows Toy.outs.
Proof.
  split.
  - vm_compute. reflexivity.
  - vm_compute. reflexivity.
  - reflexivity.
  - apply (bool_decide_unpack _). vm_compute. exact I.
  - apply (bool_decide_unpack _). vm_compute. exact I.
  - unfold Toy.outs.
    apply Forall_cons_2; [toy_runs (-1)%float|].
    apply Forall_cons_2; [toy_runs 2%float|].
    apply Forall_cons_2; [toy_runs 3%float|].
    apply Forall_nil_2.
  - reflexivity.
  - reflexivity.
  - apply Forall_cons_2; [exact I | apply Forall_nil_2].
  - unfold Toy.outs. toy_each ltac:(vm_compute; reflexivity).
Qed.

Lemma toy_ready150 :
  ready Toy.trainer150 Toy.world3 Toy.X_train_rows Toy.X_valid_rows Toy.outs150.
Proof.
  split.
  - vm_compute. reflexivity.
  - vm_compute. reflexivity.
  - reflexivity.
  - apply (bool_decide_unpack _). vm_compute. exact I.
  - apply (bool_decide_unpack _). vm_compute. exact I.
  - unfold Toy.outs150.
    apply Forall_cons_2; [toy_runs (-1)%float|].
    apply Forall_cons_2; [toy_runs 2%float|].
    apply Forall_cons_2; [toy_runs 3%float|].
    apply Forall_nil_2.
  - reflexivity.
  - reflexivity.
  - apply Forall_cons_2; [exact I | apply Forall_nil_2].
  - unfold Toy.outs150. toy_each ltac:(vm_compute; reflexivity).
Qed.

Lemma toy_seeded_split : seeded_split.
Proof. intros X y test_size stratify seed g1 g2. reflexivity. Qed.

Lemma benchmark_one_row_per_candidate_witness :
  exists error_df,
    fst (Trainer_benchmark Toy.model_dir "pred.csv" (Toy.trainer, Toy.world1))
    = Ok error_df
    /\ rows error_df
       = [[Str "Boosted Regression Tree"; Num nan; Int 100];
          [Str "Random Forest"; Num 0.25; Int 100];
          [Str "XGBoost"; Num 0.25; Int 100]].
Proof.
  destruct (benchmark_one_row_per_candidate Toy.model_dir Toy.trainer Toy.world1
              Toy.X_train_rows Toy.X_valid_rows Toy.outs "pred.csv" toy_ready)
    as (error_df & Hrun & _ & Hrows & _).
  exists error_df. split; [exact Hrun | exact Hrows].
Defined.

Lemma undefined_metric_is_nan_witness :
  fst (Trainer_eval Toy.model_dir 2 "Boosted Regression Tree" (Toy.trainer, Toy.world1))
  = Ok nan
  /\ exists error_df,
       fst (Trainer_benchmark Toy.model_dir "pred.csv" (Toy.trainer, Toy.world1))
       = Ok error_df
       /\ [Str "Boosted Regression Tree"; Num nan; Int 100] ∈ rows error_df.
Proof.
  apply (undefined_metric_is_nan Toy.model_dir Toy.trainer Toy.world1
           Toy.X_train_rows Toy.X_valid_rows Toy.outs
           Toy.brt "pred.csv" toy_ready).
  - apply list_elem_of_here.
  - vm_compute. reflexivity.
Defined.

Lemma residual_is_prediction_minus_target_witness :
  exists cols err,
    files (snd (snd (Trainer_benchmark Toy.model_dir "pred.csv" (Toy.trainer, Toy.world1))))
      !! "pred.csv" = Some (Csv cols)
    /\ dict_get "SalePrice" cols = Some [Num 208500]
    /\ dict_get "price_predict_Random Forest" cols = Some [Num 2]
    /\ dict_get "random_forest_error" cols = Some err
    /\ err !! 0%nat = Some (Num (-208498)).
Proof.
  destruct (residual_is_prediction_minus_target Toy.model_dir
              Toy.train Toy.ratio Toy.dp None 100 Toy.world0
              Toy.trainer Toy.world1 Toy.X_train_rows Toy.X_valid_rows Toy.outs
              "pred.csv" Toy.rf toy_init toy_ready)
    as (cols & err & Hfile & Htarget & Hpred & Herr & _ & _ & Hsub).
  - apply list_elem_of_further, list_elem_of_here.
  - exists cols, err.
    split; [exact Hfile|]. split; [exact Htarget|]. split; [exact Hpred|].
    split; [exact Herr|].
    exact (Hsub 0%nat 2%float 208500%float eq_refl eq_refl).
Defined.

Lemma fitted_features_are_persisted_features_witness :
  features Toy.trainer = DataPrep.features Toy.dp
  /\ files (snd (snd (Trainer_eval Toy.model_dir 3 "Random Forest"
                        (Toy.trainer, Toy.world1))))
       !! "models/random_forest100.pkl"
     = Some (PredictorPickle (Predictor.mk _ (2%float, true) ["LotArea"])).
Proof.
  destruct (fitted_features_are_persisted_features Toy.model_dir
              Toy.train Toy.ratio Toy.dp None 100 Toy.world0
              Toy.trainer Toy.world1 Toy.X_train_rows Toy.X_valid_rows Toy.outs
              Toy.rf toy_init toy_ready)
    as (Hfeatures & _ & _ & _ & Hfile).
  - apply list_elem_of_further, list_elem_of_here.
  - split; [exact Hfeatures | exact Hfile].
Defined.

Lemma split_is_deterministic_witness :
  partitions (Trainer_init Toy.train Toy.ratio Toy.dp None 100 Toy.world0)
  = partitions (Trainer_init Toy.train Toy.ratio Toy.dp None 150
                  (mkWorld ∅ ∅ ∅ ["started"] 7)).
Proof.
  exact (proj2 (split_is_deterministic Toy.train Toy.ratio Toy.dp None 100 150
                  Toy.world0 (mkWorld ∅ ∅ ∅ ["started"] 7) toy_seeded_split)).
Defined.

Lemma dump_predictor_writes_named_file_witness :
  files (snd (snd (Trainer_dump_predictor Toy.model_dir 3 "Random Forest"
                     (Toy.trainer, Toy.world1))))
    !! "models/random_forest100.pkl"
  = Some (PredictorPickle (Predictor.mk _ (2%float, false) ["LotArea"])).
Proof.
  assert (Hm : estimators Toy.world1 !! 3%nat = Some (2%float, false))
    by (vm_compute; reflexivity).
  destruct (dump_predictor_writes_named_file Toy.model_dir Toy.trainer Toy.world1
              3%nat "Random Forest" (2%float, false) Hm)
    as (_ & _ & Hfiles & _).
  rewrite Hfiles. apply lookup_insert_eq.
Defined.

Lemma two_sizes_give_two_rows_per_candidate_witness :
  exists metrics,
    fst (main_loop Toy.model_dir Toy.res_dir Toy.train Toy.dp [100; 150]
           (mkDataFrame [] []) Toy.world0) = Ok metrics
    /\ rows metrics
       = [[Str "Boosted Regression Tree"; Num nan; Int 100];
          [Str "Random Forest"; Num 0.25; Int 100];
          [Str "XGBoost"; Num 0.25; Int 100];
          [Str "Boosted Regression Tree"; Num nan; Int 150];
          [Str "Random Forest"; Num 0.25; Int 150];
          [Str "XGBoost"; Num 0.25; Int 150]].
Proof.
  destruct (two_sizes_give_two_rows_per_candidate Toy.model_dir Toy.res_dir
              Toy.train Toy.dp Toy.world0
              Toy.trainer Toy.world1 Toy.X_train_rows Toy.X_valid_rows Toy.outs
              Toy.trainer150 Toy.world3 Toy.X_train_rows Toy.X_valid_rows Toy.outs150
              toy_init toy_ready toy_init150 toy_ready150)
    as (metrics & Hrun & _ & Hrows & _).
  exists metrics. split; [exact Hrun | exact Hrows].
Defined.

Lemma benchmark_mutates_validation_table_in_place_witness :
  exists table,
    frames (snd (snd (Trainer_benchmark Toy.model_dir "pred.csv"
                        (Toy.trainer, Toy.world1)))) !! 1%nat = Some table
    /\ column "SalePrice" table = Some [Num 208500]
    /\ is_Some (column "LotArea" table)
    /\ is_Some (column "price_predict_XGBoost" table)
    /\ is_Some (column "xgboost_error" table).
Proof.
  destruct (benchmark_mutates_validation_table_in_place Toy.model_dir
              Toy.trainer Toy.world1 Toy.X_train_rows Toy.X_valid_rows Toy.outs
              "pred.csv" toy_ready)
    as (_ & _ & _ & table & Htable & _ & Htarget & Hkept & _ & Hadded).
  exists table.
  split; [exact Htable|]. split; [exact Htarget|].
  split.
  - apply Hkept. exists [Num 8450]. reflexivity.
  - apply (Hadded Toy.xgb).
    apply list_elem_of_further, list_elem_of_further, list_elem_of_here.
Defined.

Lemma eval_persists_before_scoring_witness :
  fst (Trainer_eval Toy.model_dir 2 "Boosted Regression Tree" (Toy.trainer, Toy.world1))
  = Ok nan
  /\ is_Some (files (snd (snd (Trainer_benchmark Toy.model_dir "pred.csv"
                                 (Toy.trainer, Toy.world1))))
                !! "models/boosted_regression_tree100.pkl")
  /\ exists cols,
       files (snd (snd (Trainer_benchmark Toy.model_dir "pred.csv"
                          (Toy.trainer, Toy.world1)))) !! "pred.csv"
       = Some (Csv cols)
       /\ is_Some (dict_get "price_predict_Boosted Regression Tree" cols)
       /\ is_Some (dict_get "boosted_regression_tree_error" cols).
Proof.
  destruct (eval_persists_before_scoring Toy.model_dir
              Toy.trainer Toy.world1 Toy.X_train_rows Toy.X_valid_rows Toy.outs
              Toy.brt "pred.csv" toy_ready)
    as (_ & _ & _ & Hnan).
  - apply list_elem_of_here.
  - apply Hnan. vm_compute. reflexivity.
Defined.

(** ** Further properties of the script *)

(** *** File names *)







Lemma str_int_inj n1 n2 : str_int n1 = str_int n2 -> n1 = n2.
Proof.
  unfold str_int. intros H. apply to_int_inj.
  assert (Hnn : forall z, Z.to_int z <> Decimal.Pos Decimal.Nil
                          /\ Z.to_int z <> Decimal.Neg Decimal.Nil).
  { intros [|p|p]; simpl; split; try discriminate;
      intros [= E]; by apply (Unsigned.to_uint_nonnil p). }
  apply (f_equal NilZero.int_of_string) in H.
  rewrite !NilZero.isi in H by apply Hnn.
  congruence.
Qed.

Lemma str_int_head n : exists c s, str_int n = String c s /\ c <> "/"%char.
Proof.
  unfold str_int.
  assert (Hu : forall d, exists c s, NilZero.string_of_uint d = String c s /\ c <> "/"%char).
  { intros []; simpl; eexists _, _; (split; [reflexivity|discriminate]). }
  destruct (Z.to_int n) as [d|d]; simpl.
  - apply Hu.
  - eexists _, _. split; [reflexivity|discriminate].
Qed.

Lemma string_app_inv_tail (c : string) : forall a b : string,
  a +:+ c = b +:+ c -> a = b.
Proof.
  induction a as [|x a IH]; intros [|y b] H.
  - reflexivity.
  - apply (f_equal String.length) in H.
    rewrite !length_append in H. simpl in H. lia.
  - apply (f_equal String.length) in H.
    rewrite !length_append in H. simpl in H. lia.
  - cbv [String.append] in H. fold String.append in H.
    injection H as -> H. f_equal. by apply IH.
Qed.

Lemma os_path_join_same_head a c s1 s2 :
  os_path_join a (String c s1) = os_path_join a (String c s2) -> s1 = s2.
Proof.
  destruct (Ascii.eqb_spec c "/") as [->|Hc].
  - simpl. congruence.
  - rewrite !os_path_join_relative by exact Hc.
    intros H. do 2 apply String.app_inj in H. by injection H.
Qed.

(** X2: two runs of different ensemble sizes write a candidate's predictor to
    different files; dumping for one size leaves the file of the other as it
    was. *)
Theorem predictor_files_of_two_sizes_differ `{L : Library}
    (MODEL_DIR : string) (t1 t2 : Trainer) (name : string) :
  n_estimator t1 <> n_estimator t2 ->
  predictor_file MODEL_DIR t1 name <> predictor_file MODEL_DIR t2 name
  /\ forall (w : world) model,
       files (snd (snd (Trainer_dump_predictor MODEL_DIR model name (t2, w))))
         !! predictor_file MODEL_DIR t1 name
       = files w !! predictor_file MODEL_DIR t1 name.
Proof.
  intros Hn.
  assert (Hne : predictor_file MODEL_DIR t1 name <> predictor_file MODEL_DIR t2 name).
  { unfold predictor_file. intros H. apply Hn, str_int_inj.
    apply (string_app_inv_tail ".pkl").
    destruct (rm_space name) as [|c s] eqn:Hname.
    - destruct (str_int_head (n_estimator t1)) as (c1 & s1 & E1 & Hc1).
      destruct (str_int_head (n_estimator t2)) as (c2 & s2 & E2 & Hc2).
      rewrite E1, E2 in *.
      change ("" +:+ ?x) with x in H.
      change (String ?c ?s +:+ ?x) with (String c (s +:+ x)) in H.
      rewrite !os_path_join_relative in H by assumption.
      do 2 apply String.app_inj in H. exact H.
    - change (String c s +:+ ?x) with (String c (s +:+ x)) in H.
      apply os_path_join_same_head in H.
      by apply String.app_inj in H. }
  split; [exact Hne|].
  intros w model.
  destruct (estimators w !! model) as [m|] eqn:Hm.
  - rewrite (dump_predictor_spec MODEL_DIR t2 w model name m Hm). simpl.
    apply lookup_insert_ne. congruence.
  - cbv [Trainer_dump_predictor bind get_self gets in_world joblib_dump
           estimator_at fst snd].
    rewrite Hm. reflexivity.
Qed.

Section Failures.
Context `{L : Library}.
Variables MODEL_DIR RES_DIR DAT_DIR : string.

Local Abbreviation predictor_file := (predictor_file MODEL_DIR).
Local Abbreviation after_eval := (after_eval MODEL_DIR).
Local Abbreviation after_evals := (after_evals MODEL_DIR).
Local Abbreviation dump_file := (dump_file MODEL_DIR).
Local Abbreviation dump_line := (dump_line MODEL_DIR).
Local Abbreviation after_benchmark := (after_benchmark MODEL_DIR).

(** *** Failures of an evaluation *)

Lemma eval_when_fit_raises t w model name m Xtr e :
  estimators w !! model = Some m ->
  frames w !! X_train t = Some Xtr ->
  fit m Xtr (y_train t) = Raise e ->
  Trainer_eval MODEL_DIR model name (t, w) = (Raise e, (t, w)).
Proof.
  intros He Htr Hfit.
  unfold Trainer_eval, Trainer_dump_predictor, estimator_fit, estimator_predict,
    joblib_dump, print, in_world, get_self, estimator_at, frame_at,
    try_except, bind, ret, lift_result, gets, modify.
  simpl. rewrite He. simpl. rewrite Htr. simpl. rewrite Hfit. reflexivity.
Qed.

(** X3: when [fit] raises, [eval] raises the same exception and has changed
    nothing: no file is written, no line printed, no prediction recorded. *)
Theorem eval_fit_failure_changes_nothing t w model name m Xtr e :
  estimators w !! model = Some m ->
  frames w !! X_train t = Some Xtr ->
  fit m Xtr (y_train t) = Raise e ->
  fst (Trainer_eval MODEL_DIR model name (t, w)) = Raise e
  /\ fst (snd (Trainer_eval MODEL_DIR model name (t, w))) = t
  /\ files (snd (snd (Trainer_eval MODEL_DIR model name (t, w)))) = files w
  /\ stdout (snd (snd (Trainer_eval MODEL_DIR model name (t, w)))) = stdout w
  /\ frames (snd (snd (Trainer_eval MODEL_DIR model name (t, w)))) = frames w.
Proof.
  intros He Htr Hfit.
  rewrite (eval_when_fit_raises t w model name m Xtr e He Htr Hfit).
  repeat split.
Qed.

Lemma eval_when_predict_raises t w model name m Xtr Xv m' e :
  estimators w !! model = Some m ->
  frames w !! X_train t = Some Xtr ->
  frames w !! X_valid t = Some Xv ->
  fit m Xtr (y_train t) = Ok m' ->
  predict m' Xv = Raise e ->
  Trainer_eval MODEL_DIR model name (t, w)
  = (Raise e,
     (t, mkWorld (frames w) (<[model := m']> (estimators w))
           (<[predictor_file t name := PredictorPickle (Predictor.mk _ m' (features t))]>
              (files w))
           (stdout w ++ ["dumped trained predictor " +:+ name +:+ " to file "
                         +:+ predictor_file t name])
           (np_random w))).
Proof.
  intros He Htr Hv Hfit Hpred.
  unfold Trainer_eval, Trainer_dump_predictor, estimator_fit, estimator_predict,
    joblib_dump, print, in_world, get_self, estimator_at, frame_at,
    try_except, bind, ret, lift_result, gets, modify.
  simpl.
  repeat (first [rewrite lookup_insert_eq | rewrite He | rewrite Htr | rewrite Hv
                | rewrite Hfit | rewrite Hpred]; simpl).
  reflexivity.
Qed.

(** X4: when [predict] raises, [eval] raises the same exception after the
    estimator has been fitted and its predictor written and announced; no
    prediction is recorded for the candidate. *)
Theorem eval_predict_failure_keeps_predictor t w model name m Xtr Xv m' e :
  estimators w !! model = Some m ->
  frames w !! X_train t = Some Xtr ->
  frames w !! X_valid t = Some Xv ->
  fit m Xtr (y_train t) = Ok m' ->
  predict m' Xv = Raise e ->
  fst (Trainer_eval MODEL_DIR model name (t, w)) = Raise e
  /\ fst (snd (Trainer_eval MODEL_DIR model name (t, w))) = t
  /\ estimators (snd (snd (Trainer_eval MODEL_DIR model name (t, w)))) !! model = Some m'
  /\ files (snd (snd (Trainer_eval MODEL_DIR model name (t, w))))
     = <[predictor_file t name := PredictorPickle (Predictor.mk _ m' (features t))]> (files w)
  /\ stdout (snd (snd (Trainer_eval MODEL_DIR model name (t, w))))
     = stdout w ++ ["dumped trained predictor " +:+ name +:+ " to file "
                    +:+ predictor_file t name].
Proof.
  intros He Htr Hv Hfit Hpred.
  rewrite (eval_when_predict_raises t w model name m Xtr Xv m' e He Htr Hv Hfit Hpred).
  simpl. repeat split. apply lookup_insert_eq.
Qed.

(** X5: only [ValueError] is turned into NaN: any other exception of the metric
    leaves [eval], the predictor written and the predictions recorded. *)
Theorem eval_propagates_other_metric_errors t w model name m Xtr Xv m' p e :
  estimators w !! model = Some m ->
  frames w !! X_train t = Some Xtr ->
  frames w !! X_valid t = Some Xv ->
  fit m Xtr (y_train t) = Ok m' ->
  predict m' Xv = Ok p ->
  mean_squared_log_error (y_valid t) p = Raise e ->
  e <> ValueError ->
  Trainer_eval MODEL_DIR model name (t, w) = (Raise e, after_eval t w model name m' p)
  /\ dict_get name (predictions (fst (after_eval t w model name m' p))) = Some p
  /\ files (snd (after_eval t w model name m' p)) !! predictor_file t name
     = Some (PredictorPickle (Predictor.mk _ m' (features t))).
Proof.
  intros He Htr Hv Hfit Hpred Hmetric Hne.
  rewrite (eval_spec MODEL_DIR t w model name m Xtr Xv m' p He Htr Hv Hfit Hpred).
  rewrite Hmetric. split.
  - destruct e; try reflexivity. by destruct Hne.
  - split; simpl.
    + apply dict_get_set_eq.
    + apply lookup_insert_eq.
Qed.

(** *** A benchmark that fails *)

Lemma for_loop_app {S A B} (l1 l2 : list A) (body : A -> B -> M S B) : forall acc s,
  for_loop (l1 ++ l2) body acc s
  = match for_loop l1 body acc s with
    | (Ok acc', s') => for_loop l2 body acc' s'
    | (Raise e, s') => (Raise e, s')
    end.
Proof.
  induction l1 as [|x l1 IH]; intros acc s; simpl; [reflexivity|].
  unfold bind. destruct (body x acc s) as [[acc'|e] s']; [apply IH|reflexivity].
Qed.

Lemma fold_fit_other outs : forall (es : gmap nat regressor) l,
  l ∉ map o_model outs -> fold_left fit_object outs es !! l = es !! l.
Proof.
  induction outs as [|o outs IH]; intros es l Hl; simpl; [reflexivity|].
  simpl in Hl. apply not_elem_of_cons in Hl as [Hne Hl].
  rewrite IH by exact Hl. unfold fit_object. by apply lookup_insert_ne.
Qed.

Lemma fold_fit_candidate outs : forall (es : gmap nat regressor) o,
  NoDup (map o_model outs) -> o ∈ outs ->
  fold_left fit_object outs es !! o_model o = Some (o_fitted o).
Proof.
  induction outs as [|o' outs IH]; intros es o Hnd Ho; simpl.
  - by apply elem_of_nil in Ho.
  - simpl in Hnd. apply NoDup_cons in Hnd as [Hnotin Hnd].
    apply elem_of_cons in Ho as [->|Ho].
    + rewrite fold_fit_other by exact Hnotin. apply lookup_insert_eq.
    + by apply IH.
Qed.

Lemma fold_dump_line t outs : forall out,
  fold_left (dump_line t) outs out
  = out ++ map (fun o => "dumped trained predictor " +:+ o_name o +:+ " to file "
                         +:+ predictor_file t (o_name o)) outs.
Proof.
  induction outs as [|o outs IH]; intros out; simpl.
  - by rewrite app_nil_r.
  - rewrite IH. unfold dump_line. by rewrite <- app_assoc.
Qed.

Lemma benchmark_when_fit_raises
    t w Xtr Xv outs name model rest m e pred_file :
  frames w !! X_train t = Some Xtr ->
  frames w !! X_valid t = Some Xv ->
  models t = map candidate outs ++ (name, model) :: rest ->
  NoDup (map o_model outs) ->
  model ∉ map o_model outs ->
  Forall (runs t w Xtr Xv) outs ->
  estimators w !! model = Some m ->
  fit m Xtr (y_train t) = Raise e ->
  Trainer_benchmark MODEL_DIR pred_file (t, w)
  = (Raise e,
     (set_predictions (fold_left record_prediction outs (predictions t)) t,
      mkWorld (frames w) (fold_left fit_object outs (estimators w))
        (fold_left (dump_file t) outs (files w))
        (stdout w ++ map (fun o => "dumped trained predictor " +:+ o_name o
                                   +:+ " to file " +:+ predictor_file t (o_name o)) outs)
        (np_random w))).
Proof.
  intros Htr Hv Hmodels Hnd Hnotin Hruns Hm Hfit.
  unfold Trainer_benchmark.
  unfold bind at 1, get_self at 1, gets at 1. simpl fst.
  unfold bind at 1.
  rewrite Hmodels, for_loop_app.
  rewrite (eval_loop_spec MODEL_DIR Xtr Xv outs t w [] Htr Hv Hnd Hruns).
  rewrite after_evals_eq, fold_dump_line.
  simpl for_loop. unfold bind at 1. unfold bind at 1.
  rewrite (eval_when_fit_raises _ _ model name m Xtr e).
  - reflexivity.
  - simpl. by rewrite fold_fit_other.
  - exact Htr.
  - exact Hfit.
Qed.

(** X6: when the candidates before one evaluate and that one's [fit] raises,
    [benchmark] raises the same exception: the predictors of the earlier
    candidates are written, no table is changed (the validation table gets no
    column), and the predictions file is neither written nor announced. *)
Theorem benchmark_stops_at_failing_fit
    t w Xtr Xv outs name model rest m e pred_file :
  frames w !! X_train t = Some Xtr ->
  frames w !! X_valid t = Some Xv ->
  models t = map candidate outs ++ (name, model) :: rest ->
  NoDup (map o_model outs) ->
  model ∉ map o_model outs ->
  Forall (runs t w Xtr Xv) outs ->
  estimators w !! model = Some m ->
  fit m Xtr (y_train t) = Raise e ->
  fst (Trainer_benchmark MODEL_DIR pred_file (t, w)) = Raise e
  /\ frames (snd (snd (Trainer_benchmark MODEL_DIR pred_file (t, w)))) = frames w
  /\ files (snd (snd (Trainer_benchmark MODEL_DIR pred_file (t, w))))
     = fold_left (dump_file t) outs (files w)
  /\ stdout (snd (snd (Trainer_benchmark MODEL_DIR pred_file (t, w))))
     = stdout w ++ map (fun o => "dumped trained predictor " +:+ o_name o
                                 +:+ " to file " +:+ predictor_file t (o_name o)) outs
  /\ predictions (fst (snd (Trainer_benchmark MODEL_DIR pred_file (t, w))))
     = fold_left record_prediction outs (predictions t).
Proof.
  intros Htr Hv Hmodels Hnd Hnotin Hruns Hm Hfit.
  rewrite (benchmark_when_fit_raises t w Xtr Xv outs name model rest m e pred_file
             Htr Hv Hmodels Hnd Hnotin Hruns Hm Hfit).
  repeat split.
Qed.

(** *** What a benchmark changes *)

(** X7: a benchmark leaves every candidate's estimator object fitted and no
    other estimator touched, and changes no field of the trainer but
    [predictions], where it records each candidate's predictions. *)
Theorem benchmark_fits_the_candidates_only t w Xtr Xv outs pred_file :
  ready t w Xtr Xv outs ->
  let s := snd (Trainer_benchmark MODEL_DIR pred_file (t, w)) in
  (forall o, o ∈ outs -> estimators (snd s) !! o_model o = Some (o_fitted o))
  /\ (forall l, l ∉ map o_model outs -> estimators (snd s) !! l = estimators w !! l)
  /\ (n_estimator (fst s), features (fst s), models (fst s)) = (n_estimator t, features t, models t)
  /\ (X_train (fst s), y_train (fst s), X_valid (fst s), y_valid (fst s))
     = (X_train t, y_train t, X_valid t, y_valid t)
  /\ forall o, o ∈ outs -> dict_get (o_name o) (predictions (fst s)) = Some (o_pred o).
Proof.
  intros Hready s. subst s.
  rewrite (benchmark_spec MODEL_DIR t w Xtr Xv outs pred_file Hready).
  unfold after_benchmark. simpl.
  split; [intros o Ho; apply fold_fit_candidate;
          [exact (ready_objects _ _ _ _ _ Hready) | exact Ho]|].
  split; [intros l Hl; by apply fold_fit_other|].
  do 2 (split; [reflexivity|]).
  intros o Ho.
  apply (fold_dict_set_get o_name o_pred); [exact (ready_names _ _ _ _ _ Hready) | exact Ho].
Qed.

(** X8: a benchmark prints one line per candidate, in the order of the
    dictionary, each naming the candidate and its predictor file, and then
    the line naming the predictions file. *)
Theorem benchmark_output_lines t w Xtr Xv outs pred_file :
  ready t w Xtr Xv outs ->
  stdout (snd (snd (Trainer_benchmark MODEL_DIR pred_file (t, w))))
  = stdout w
    ++ map (fun item => "dumped trained predictor " +:+ fst item +:+ " to file "
                        +:+ os_path_join MODEL_DIR
                              (rm_space (fst item) +:+ str_int (n_estimator t) +:+ ".pkl"))
         (models t)
    ++ ["dumped predictions to file " +:+ pred_file].
Proof.
  intros Hready.
  rewrite (benchmark_spec MODEL_DIR t w Xtr Xv outs pred_file Hready).
  unfold after_benchmark. simpl.
  rewrite fold_dump_line, (ready_models _ _ _ _ _ Hready), map_map, <- app_assoc.
  reflexivity.
Qed.

End Failures.

Section Construction.
Context `{L : Library}.

(** *** The constructor *)

Lemma select_columns_missing cols f : forall labels,
  f ∈ labels -> dict_get f cols = None -> select_columns cols labels = Raise KeyError.
Proof.
  induction labels as [|l labels IH]; intros Hin Hf.
  - by apply elem_of_nil in Hin.
  - simpl. destruct (dict_get l cols) as [c|] eqn:Hl; [|reflexivity].
    apply elem_of_cons in Hin as [->|Hin]; [congruence|].
    by rewrite IH.
Qed.

(** X9: when the training table lacks one of the feature columns or the target
    column, the constructor raises [KeyError], having printed the ensemble
    size and done nothing else: no split, no table, no estimator. *)
Theorem init_missing_column_raises_key_error train ratio dp stratify n w0 f :
  f ∈ DataPrep.features dp ++ ["SalePrice"] ->
  column f train = None ->
  Trainer_init train ratio dp stratify n w0
  = (Raise KeyError,
     mkWorld (frames w0) (estimators w0) (files w0)
       (stdout w0 ++ [String (ascii_of_nat 9) " # estimators = " +:+ str_int n])
       (np_random w0)).
Proof.
  intros Hin Hf. rewrite init_eq.
  unfold select_X_y, getitem_list.
  by rewrite (select_columns_missing _ f _ Hin Hf).
Qed.

Lemma lookup_fresh_insert {V} (m : gmap nat V) (l : nat) (v : V) :
  let l' := fresh (dom (<[l := v]> m)) in l' <> l /\ m !! l' = None.
Proof.
  intros l'. pose proof (fresh_not_in (<[l := v]> m)) as H.
  fold l' in H. apply lookup_insert_None in H as [H1 H2]. split; congruence.
Qed.

(** X10: the constructor creates five new estimator objects, all different and
    none fitted: the two linear models, which it puts in no field, and the
    three candidates of [models], in this order, the boosted trees and the
    forest with the seed and the ensemble size, XGBoost with the ensemble
    size only.  Estimators that existed are left as they were. *)
Theorem init_builds_new_candidates train ratio dp stratify n w0 t w :
  Trainer_init train ratio dp stratify n w0 = (Ok t, w) ->
  exists ridge lasso gb rf xgb,
    models t = [("Boosted Regression Tree", gb); ("Random Forest", rf); ("XGBoost", xgb)]
    /\ NoDup [ridge; lasso; gb; rf; xgb]
    /\ Forall (fun l => estimators w0 !! l = None) [ridge; lasso; gb; rf; xgb]
    /\ estimators w !! ridge = Some (Ridge SEED)
    /\ estimators w !! lasso = Some (Lasso SEED)
    /\ estimators w !! gb = Some (GradientBoostingRegressor SEED n)
    /\ estimators w !! rf = Some (RandomForestRegressor SEED n)
    /\ estimators w !! xgb = Some (XGBRegressor n)
    /\ forall l, l ∉ [ridge; lasso; gb; rf; xgb] -> estimators w !! l = estimators w0 !! l.
Proof.
  intros Hinit.
  destruct (init_inv _ _ _ _ _ _ _ _ Hinit)
    as (X & y & b & [[[Xtr Xv] ytr] yv] & g & _ & _ & _ & Hc).
  unfold constructed in Hc. cbv zeta in Hc.
  set (es0 := estimators w0) in *.
  set (e1 := fresh (dom es0)) in *.
  set (es1 := <[e1 := Ridge SEED]> es0) in *.
  set (e2 := fresh (dom es1)) in *.
  set (es2 := <[e2 := Lasso SEED]> es1) in *.
  set (e3 := fresh (dom es2)) in *.
  set (es3 := <[e3 := GradientBoostingRegressor SEED n]> es2) in *.
  set (e4 := fresh (dom es3)) in *.
  set (es4 := <[e4 := RandomForestRegressor SEED n]> es3) in *.
  set (e5 := fresh (dom es4)) in *.
  injection Hc as -> ->. simpl.
  pose proof (fresh_not_in es0) as F1. fold e1 in F1.
  pose proof (fresh_not_in es1) as F2. fold e2 in F2.
  pose proof (fresh_not_in es2) as F3. fold e3 in F3.
  pose proof (fresh_not_in es3) as F4. fold e4 in F4.
  pose proof (fresh_not_in es4) as F5. fold e5 in F5.
  unfold es4 in F5. apply lookup_insert_None in F5 as [F5 N54].
  unfold es3 in F5, F4. apply lookup_insert_None in F5 as [F5 N53].
  apply lookup_insert_None in F4 as [F4 N43].
  unfold es2 in F5, F4, F3. apply lookup_insert_None in F5 as [F5 N52].
  apply lookup_insert_None in F4 as [F4 N42].
  apply lookup_insert_None in F3 as [F3 N32].
  unfold es1 in F5, F4, F3, F2. apply lookup_insert_None in F5 as [F5 N51].
  apply lookup_insert_None in F4 as [F4 N41].
  apply lookup_insert_None in F3 as [F3 N31].
  apply lookup_insert_None in F2 as [F2 N21].
  exists e1, e2, e3, e4, e5.
  split; [reflexivity|].
  split.
  { repeat (apply NoDup_cons_2;
            [rewrite ?not_elem_of_cons; repeat split; try congruence; apply not_elem_of_nil|]).
    apply NoDup_nil_2. }
  split.
  { repeat (apply Forall_cons_2; [assumption|]). apply Forall_nil_2. }
  unfold es4, es3, es2, es1.
  split; [by rewrite !lookup_insert_ne, lookup_insert_eq by congruence|].
  split; [by rewrite !lookup_insert_ne, lookup_insert_eq by congruence|].
  split; [by rewrite !lookup_insert_ne, lookup_insert_eq by congruence|].
  split; [by rewrite lookup_insert_ne, lookup_insert_eq by congruence|].
  split; [by rewrite lookup_insert_eq|].
  intros l Hl. rewrite !not_elem_of_cons in Hl.
  destruct Hl as (H1 & H2 & H3 & H4 & H5 & _).
  by rewrite !lookup_insert_ne by congruence.
Qed.

(** X11: the constructor puts the two partitions of the table in two new table
    objects, changes no table that existed and no file, and prints one
    line, the ensemble size; the trainer starts without predictions. *)
Theorem init_leaves_existing_tables train ratio dp stratify n w0 t w :
  Trainer_init train ratio dp stratify n w0 = (Ok t, w) ->
  frames w0 !! X_train t = None
  /\ frames w0 !! X_valid t = None
  /\ X_train t <> X_valid t
  /\ (forall l, l <> X_train t -> l <> X_valid t -> frames w !! l = frames w0 !! l)
  /\ files w = files w0
  /\ stdout w = stdout w0 ++ [String (ascii_of_nat 9) " # estimators = " +:+ str_int n]
  /\ predictions t = []
  /\ n_estimator t = n
  /\ features t = DataPrep.features dp.
Proof.
  intros Hinit.
  destruct (init_inv _ _ _ _ _ _ _ _ Hinit)
    as (X & y & b & [[[Xtr Xv] ytr] yv] & g & _ & _ & _ & Hc).
  unfold constructed in Hc. cbv zeta in Hc.
  injection Hc as -> ->. simpl.
  pose proof (fresh_not_in (frames w0)) as F1.
  destruct (lookup_fresh_insert (frames w0) (fresh (dom (frames w0))) Xtr) as [N F2].
  split; [exact F1|]. split; [exact F2|]. split; [congruence|].
  split; [intros l H1 H2; by rewrite !lookup_insert_ne by congruence|].
  repeat split.
Qed.

(** X12: the test [if not stratify] on a list: a list with an element is passed
    to the split as its stratification key, an empty list is dropped, the
    constructor doing then all it does when no key is given. *)
Theorem init_tests_the_key_for_emptiness train ratio dp n w0 :
  Trainer_init train ratio dp (Some (PyList [])) n w0
  = Trainer_init train ratio dp None n w0
  /\ forall c key,
       partitions (Trainer_init train ratio dp (Some (PyList (c :: key))) n w0)
       = match select_X_y train (DataPrep.features dp) with
         | Raise e => Raise e
         | Ok (X, y) =>
             match fst (train_test_split X y ratio (Some (PyList (c :: key)))
                          (Some SEED) (np_random w0)) with
             | Raise e => Raise e
             | Ok (Xtr, Xv, ytr, yv) => Ok (Some Xtr, Some Xv, ytr, yv)
             end
         end.
Proof.
  split.
  - rewrite !init_eq. reflexivity.
  - intros c key. rewrite init_partitions.
    destruct (select_X_y train (DataPrep.features dp)) as [[X y]|e]; reflexivity.
Qed.

End Construction.

Section Predictions.
Context `{L : Library}.
Variable MODEL_DIR : string.

(** *** The prediction table *)

(** X13: before any evaluation [retrieve_predictions] raises [KeyError] at the
    first candidate, the target column being already written into the
    validation table. *)
Theorem retrieve_predictions_before_eval_raises t w Xv name model rest :
  frames w !! X_valid t = Some Xv ->
  s_index (y_valid t) = df_index Xv ->
  models t = (name, model) :: rest ->
  dict_get name (predictions t) = None ->
  Trainer_retrieve_predictions (t, w)
  = (Raise KeyError,
     (t, mkWorld (<[X_valid t := set_column Xv "SalePrice" (s_values (y_valid t))]> (frames w))
           (estimators w) (files w) (stdout w) (np_random w))).
Proof.
  intros Hv Hidx Hmodels Hnone.
  unfold Trainer_retrieve_predictions.
  unfold bind at 1, get_self at 1, gets at 1. simpl fst.
  unfold bind at 1.
  rewrite (frame_update_spec t w (X_valid t) _ Xv
             (set_column Xv "SalePrice" (s_values (y_valid t))) Hv)
    by (by apply setitem_series_ok).
  unfold bind at 1. rewrite Hmodels. simpl for_loop.
  unfold bind at 1. unfold bind at 1, get_self at 1, gets at 1. simpl fst.
  unfold bind at 1, lift_result at 1, dict_getitem at 1.
  rewrite Hnone. reflexivity.
Qed.

Lemma dict_set_same {V} k (v : V) : forall d,
  dict_get k d = Some v -> dict_set k v d = d.
Proof.
  induction d as [|[k' v'] d IH]; simpl; [discriminate|].
  destruct (String.eqb_spec k k') as [->|Hne].
  - by intros [= ->].
  - intros H. by rewrite IH.
Qed.

Lemma set_column_same df l v : column l df = Some v -> set_column df l v = df.
Proof.
  unfold column, set_column. intros H. rewrite (dict_set_same _ _ _ H). by destruct df.
Qed.

Lemma fold_add_prediction_same y outs : forall df,
  (forall o, o ∈ outs ->
     column (prediction_label (o_name o)) df = Some (map Num (o_pred o))
     /\ column (error_label (o_name o)) df = Some (residuals (o_pred o) y)) ->
  fold_left (add_prediction y) outs df = df.
Proof.
  induction outs as [|o outs IH]; intros df H; simpl; [reflexivity|].
  destruct (H o (list_elem_of_here _ _)) as [Hp He].
  unfold add_prediction at 2.
  rewrite (set_column_same _ _ _ Hp), (set_column_same _ _ _ He).
  apply IH. intros o' Ho'. apply H. by apply list_elem_of_further.
Qed.

Lemma prediction_table_again (t : Trainer) Xv outs :
  NoDup (candidate_labels outs) ->
  prediction_table t (prediction_table t Xv outs) outs = prediction_table t Xv outs.
Proof.
  intros Hnd. unfold prediction_table at 1.
  rewrite set_column_same.
  - apply fold_add_prediction_same. intros o Ho.
    by apply column_fold_candidate.
  - unfold prediction_table.
    rewrite column_fold_other by apply target_not_candidate_label.
    apply column_set_eq.
Qed.

(** X14: building the prediction table a second time changes nothing: a second
    call of [retrieve_predictions] returns the same table object in the
    same state. *)
Theorem retrieve_predictions_twice_is_once t w Xv outs :
  frames w !! X_valid t = Some Xv ->
  s_index (y_valid t) = df_index Xv ->
  length (s_values (y_valid t)) = nrows Xv ->
  Forall numeric (s_values (y_valid t)) ->
  dict_keys (models t) = map o_name outs ->
  Forall (recorded t (nrows Xv)) outs ->
  NoDup (candidate_labels outs) ->
  fst (Trainer_retrieve_predictions (t, w)) = Ok (X_valid t)
  /\ Trainer_retrieve_predictions (snd (Trainer_retrieve_predictions (t, w)))
     = Trainer_retrieve_predictions (t, w).
Proof.
  intros Hv Hidx Hlen Hnum Hkeys Hrec Hnd.
  rewrite (retrieve_spec t w Xv outs Hv Hidx Hlen Hnum Hkeys Hrec).
  split; [reflexivity|]. simpl snd.
  assert (Hrows : nrows (prediction_table t Xv outs) = nrows Xv).
  { unfold nrows, prediction_table. by rewrite index_fold_add_prediction. }
  rewrite (retrieve_spec t _ (prediction_table t Xv outs) outs).
  - by rewrite prediction_table_again, store_frame_twice.
  - unfold store_frame. simpl. apply lookup_insert_eq.
  - unfold prediction_table. by rewrite index_fold_add_prediction.
  - by rewrite Hrows.
  - exact Hnum.
  - exact Hkeys.
  - by rewrite Hrows.
Qed.

(** X15: after a benchmark the trainer's validation table holds the target and
    the prediction columns, and it is that table a further evaluation hands
    to [predict]: the evaluation returns what the metric gives on those
    predictions, or raises what [predict] raises on that table. *)
Theorem evaluation_after_benchmark_uses_the_augmented_table
    t w Xtr Xv outs pred_file o m2 :
  ready t w Xtr Xv outs ->
  X_train t <> X_valid t ->
  o ∈ outs ->
  fit (o_fitted o) Xtr (y_train t) = Ok m2 ->
  let s := snd (Trainer_benchmark MODEL_DIR pred_file (t, w)) in
  frames (snd s) !! X_valid (fst s) = Some (prediction_table t Xv outs)
  /\ column "SalePrice" (prediction_table t Xv outs) = Some (s_values (y_valid t))
  /\ fst (Trainer_eval MODEL_DIR (o_model o) (o_name o) s)
     = match predict m2 (prediction_table t Xv outs) with
       | Ok p => caught (mean_squared_log_error (y_valid t) p)
       | Raise e => Raise e
       end.
Proof.
  intros Hready Hne Ho Hfit s. subst s.
  rewrite (benchmark_spec MODEL_DIR t w Xtr Xv outs pred_file Hready).
  unfold after_benchmark. simpl snd. simpl fst.
  set (t' := set_predictions _ t). set (w' := mkWorld _ _ _ _ _).
  assert (Hm : estimators w' !! o_model o = Some (o_fitted o)).
  { unfold w'. simpl. apply fold_fit_candidate;
      [exact (ready_objects _ _ _ _ _ Hready) | exact Ho]. }
  assert (Htr : frames w' !! X_train t' = Some Xtr).
  { unfold w', t'. simpl. rewrite lookup_insert_ne by congruence.
    exact (ready_train _ _ _ _ _ Hready). }
  assert (Hv : frames w' !! X_valid t' = Some (prediction_table t Xv outs)).
  { unfold w', t'. simpl. apply lookup_insert_eq. }
  split; [exact Hv|].
  split.
  { unfold prediction_table.
    rewrite column_fold_other by apply target_not_candidate_label.
    apply column_set_eq. }
  destruct (predict m2 (prediction_table t Xv outs)) as [p|e] eqn:Hpred.
  - by rewrite (eval_spec MODEL_DIR t' w' (o_model o) (o_name o) (o_fitted o) Xtr
                  (prediction_table t Xv outs) m2 p Hm Htr Hv Hfit Hpred).
  - by rewrite (eval_when_predict_raises MODEL_DIR t' w' (o_model o) (o_name o)
                  (o_fitted o) Xtr (prediction_table t Xv outs) m2 e Hm Htr Hv Hfit Hpred).
Qed.

End Predictions.

Section Driver.
Context `{L : Library}.
Variables MODEL_DIR RES_DIR DAT_DIR : string.

(** *** The script *)


Lemma mask_list_map {A} (f : A -> bool) (l : list A) :
  mask_list (map f l) l = List.filter f l.
Proof.
  unfold mask_list. induction l as [|x l IH]; simpl; [reflexivity|].
  destruct (f x); simpl; by rewrite IH.
Qed.

Lemma length_mask_list {A B} (f : A -> bool) (l : list A) : forall l' : list B,
  length l' = length l ->
  length (mask_list (map f l) l') = length (List.filter f l).
Proof.
  unfold mask_list. induction l as [|x l IH]; intros [|y l'] H; simpl in *;
    try reflexivity; try discriminate.
  injection H as H. destruct (f x); simpl; by rewrite IH.
Qed.

Lemma dict_get_map_values {V W} (g : V -> W) k : forall d : dict V,
  dict_get k (map (fun c => (fst c, g (snd c))) d) = option_map g (dict_get k d).
Proof.
  induction d as [|[k' v] d IH]; simpl; [reflexivity|].
  destruct (String.eqb k k'); [reflexivity|exact IH].
Qed.

Lemma filter_Forall {A} (f : A -> bool) (l : list A) :
  Forall (fun x => f x = true) (List.filter f l).
Proof. apply Forall_forall. intros x Hx. apply list_elem_of_In, filter_In in Hx. tauto. Qed.

(** X17: the rows the script trains on are the rows of the data whose sale
    price is not missing, in their order and with all the columns: the
    target column of the training table has no missing value. *)
Theorem rows_without_sale_price_are_left_out df c :
  column "SalePrice" df = Some c ->
  length (df_index df) = length c ->
  column "SalePrice" (getitem_mask df (map notnull c)) = Some (List.filter notnull c)
  /\ Forall (fun x => notnull x = true) (List.filter notnull c)
  /\ nrows (getitem_mask df (map notnull c)) = length (List.filter notnull c)
  /\ column_names (getitem_mask df (map notnull c)) = column_names df
  /\ forall l v, column l df = Some v ->
       column l (getitem_mask df (map notnull c)) = Some (mask_list (map notnull c) v).
Proof.
  intros Hc Hlen.
  assert (Hcol : forall l v, column l df = Some v ->
            column l (getitem_mask df (map notnull c)) = Some (mask_list (map notnull c) v)).
  { intros l v Hl. unfold column, getitem_mask in *. simpl.
    by rewrite dict_get_map_values, Hl. }
  split; [by rewrite (Hcol _ _ Hc), mask_list_map|].
  split; [apply filter_Forall|].
  split; [unfold nrows, getitem_mask; simpl; by apply length_mask_list|].
  split; [|exact Hcol].
  unfold column_names, getitem_mask. simpl. rewrite map_map. reflexivity.
Qed.

(** *** The aggregate table *)

Local Abbreviation passes := (passes MODEL_DIR RES_DIR).
Local Abbreviation main_loop := (main_loop MODEL_DIR RES_DIR).

Lemma concat_onto_empty t outs :
  pd_concat (mkDataFrame [] []) (error_table t outs)
  = metrics_table (range_index (length outs)) (map (pair (n_estimator t)) outs).
Proof.
  unfold pd_concat, error_table, metrics_table. simpl.
  by rewrite repeat_as_map, !map_map.
Qed.

Lemma concat_onto_metrics idx xs t outs :
  pd_concat (metrics_table idx xs) (error_table t outs)
  = metrics_table (idx ++ range_index (length outs))
      (xs ++ map (pair (n_estimator t)) outs).
Proof.
  unfold pd_concat, error_table, metrics_table. simpl.
  by rewrite repeat_as_map, !map_app, !map_map.
Qed.

Lemma metrics_table_rows idx xs :
  length idx = length xs ->
  rows (metrics_table idx xs) = map (fun x => error_row (fst x) (snd x)) xs.
Proof.
  intros H.
  apply (rows_of_columns xs idx
           [("model", fun x : Z * outcome => Str (o_name (snd x)));
            ("mean_squared_log_error", fun x => Num (o_error (snd x)));
            ("n_estimator", fun x => Int (fst x))] H).
Qed.

Lemma main_loop_pass train dp n sizes acc w0 t w Xtr Xv outs :
  Trainer_init train 0x1.999999999999ap-4%float dp None n w0 = (Ok t, w) ->
  ready t w Xtr Xv outs ->
  main_loop train dp (n :: sizes) acc w0
  = main_loop train dp sizes (pd_concat acc (error_table t outs))
      (snd (snd (Trainer_benchmark MODEL_DIR
                   (os_path_join RES_DIR (str_int n +:+ "_est_validation.csv"))
                   (t, w)))).
Proof.
  intros Hinit Hready. unfold main_loop. simpl for_loop.
  unfold bind at 1. unfold bind at 1. rewrite Hinit.
  unfold bind at 1. unfold run_method at 1.
  rewrite (benchmark_spec MODEL_DIR _ _ _ _ _ _ Hready).
  reflexivity.
Qed.

Lemma main_loop_passes train dp sizes w0 blocks w' :
  passes train dp sizes w0 blocks w' ->
  forall idx xs, length idx = length xs ->
  exists idx',
    main_loop train dp sizes (metrics_table idx xs) w0
    = (Ok (metrics_table idx' (xs ++ stacked blocks)), w')
    /\ length idx' = length (xs ++ stacked blocks).
Proof.
  induction 1 as [w|n sizes w0 t w Xtr Xv outs blocks w' Hinit Hready Hrest IH];
    intros idx xs Hlen.
  - exists idx. unfold stacked. simpl. rewrite app_nil_r. split; [reflexivity|exact Hlen].
  - rewrite (main_loop_pass _ _ _ _ _ _ _ _ _ _ _ Hinit Hready), concat_onto_metrics.
    destruct (init_trainer _ _ _ _ _ _ _ _ Hinit) as (Hn & _). rewrite Hn.
    destruct (IH (idx ++ range_index (length outs)) (xs ++ map (pair n) outs))
      as (idx' & Hrun & Hlen').
    { rewrite !length_app, length_map, length_range_index. lia. }
    exists idx'. unfold stacked in *. simpl. rewrite app_assoc. split; assumption.
Qed.

(** X18: when every pass of the loop succeeds, the loop returns the error tables
    of the passes stacked in the order of the sizes: one row per size and
    candidate, carrying the candidate's name, its error in that pass and the
    size. *)
Theorem main_loop_stacks_the_error_tables train dp sizes w0 blocks w' :
  passes train dp sizes w0 blocks w' ->
  exists metrics,
    main_loop train dp sizes (mkDataFrame [] []) w0 = (Ok metrics, w')
    /\ rows metrics
       = flat_map (fun b => map (error_row (fst b)) (snd b)) blocks
    /\ map fst blocks = sizes
    /\ Forall (fun b => map o_name (snd b) = tree_names) blocks
    /\ length (rows metrics) = (length sizes * length tree_names)%nat.
Proof.
  intros Hpasses.
  assert (Hshape : map fst blocks = sizes
                   /\ Forall (fun b => map o_name (snd b) = tree_names) blocks).
  { clear -Hpasses.
    induction Hpasses as [w|n sizes w0 t w Xtr Xv outs blocks w' Hinit Hready Hrest IH].
    - split; [reflexivity|apply Forall_nil_2].
    - destruct IH as [IH1 IH2]. split; [simpl; by rewrite IH1|].
      apply Forall_cons_2; [|exact IH2]. simpl.
      destruct (init_trainer _ _ _ _ _ _ _ _ Hinit) as (_ & _ & _ & Hkeys & _).
      exact (ready_tree_names _ _ _ _ _ Hready Hkeys). }
  destruct Hshape as [Hsizes Hnames].
  assert (Hflat : forall bs : list (Z * list outcome),
            map (fun x => error_row (fst x) (snd x)) (stacked bs)
            = flat_map (fun b => map (error_row (fst b)) (snd b)) bs).
  { induction bs as [|b bs IHb]; [reflexivity|].
    unfold stacked in *. simpl. by rewrite map_app, map_map, IHb. }
  assert (Hcount : forall bs : list (Z * list outcome),
            Forall (fun b => map o_name (snd b) = tree_names) bs ->
            length (flat_map (fun b => map (error_row (fst b)) (snd b)) bs)
            = (length bs * length tree_names)%nat).
  { induction 1 as [|b bs Hb _ IHb]; [reflexivity|].
    assert (Hl : length (snd b) = length tree_names)
      by (rewrite <- Hb; by rewrite length_map).
    simpl flat_map. rewrite length_app, IHb, length_map, Hl. simpl. lia. }
  destruct Hpasses as [w|n sizes w0 t w Xtr Xv outs blocks' w' Hinit Hready Hrest].
  - exists (mkDataFrame [] []). repeat split; try reflexivity. apply Forall_nil_2.
  - rewrite (main_loop_pass _ _ _ _ _ _ _ _ _ _ _ Hinit Hready), concat_onto_empty.
    destruct (init_trainer _ _ _ _ _ _ _ _ Hinit) as (Hn & _). rewrite Hn.
    destruct (main_loop_passes _ _ _ _ _ _ Hrest
                (range_index (length outs)) (map (pair n) outs))
      as (idx' & Hrun & Hlen').
    { by rewrite length_map, length_range_index. }
    exists (metrics_table idx' (map (pair n) outs ++ stacked blocks')).
    split; [exact Hrun|].
    assert (Hrows : rows (metrics_table idx' (map (pair n) outs ++ stacked blocks'))
                    = flat_map (fun b => map (error_row (fst b)) (snd b))
                        ((n, outs) :: blocks')).
    { rewrite (metrics_table_rows _ _ Hlen'), map_app, map_map, Hflat. reflexivity. }
    split; [exact Hrows|]. split; [exact Hsizes|]. split; [exact Hnames|].
    rewrite Hrows, (Hcount _ Hnames), <- Hsizes, length_map. reflexivity.
Qed.

End Driver.

(** ** The further properties on the small libraries *)

Lemma predictor_files_of_two_sizes_differ_witness :
  predictor_file Toy.model_dir Toy.trainer "XGBoost"
  <> predictor_file Toy.model_dir Toy.trainer150 "XGBoost".
Proof.
  assert (H : n_estimator Toy.trainer <> n_estimator Toy.trainer150) by discriminate.
  exact (proj1 (predictor_files_of_two_sizes_differ Toy.model_dir
                  Toy.trainer Toy.trainer150 "XGBoost" H)).
Defined.

Lemma eval_fit_failure_changes_nothing_witness :
  fst (Trainer_eval Toy.model_dir 1 "Forest of 0" (Strict.trainer, Strict.world0))
  = Raise ValueError
  /\ files (snd (snd (Trainer_eval Toy.model_dir 1 "Forest of 0"
                        (Strict.trainer, Strict.world0)))) = ∅.
Proof.
  destruct (eval_fit_failure_changes_nothing (L := Strict.library) Toy.model_dir
              Strict.trainer Strict.world0 1%nat "Forest of 0" (0, false)
              Strict.X_train_rows ValueError)
    as (Hraise & _ & Hfiles & _).
  - vm_compute. reflexivity.
  - vm_compute. reflexivity.
  - reflexivity.
  - split; [exact Hraise | exact Hfiles].
Defined.

Lemma eval_predict_failure_keeps_predictor_witness :
  fst (Trainer_eval Toy.model_dir 0 "Forest of 100" (Strict.trainer_target, Strict.world0))
  = Raise ValueError
  /\ files (snd (snd (Trainer_eval Toy.model_dir 0 "Forest of 100"
                        (Strict.trainer_target, Strict.world0))))
     = <["models/forest_of_100100.pkl" :=
           PredictorPickle (Predictor.mk Strict.library (100, true) ["LotArea"])]> ∅.
Proof.
  destruct (eval_predict_failure_keeps_predictor (L := Strict.library) Toy.model_dir
              Strict.trainer_target Strict.world0 0%nat "Forest of 100" (100, false)
              Strict.X_train_rows Strict.X_valid_with_target (100, true) ValueError)
    as (Hraise & _ & _ & Hfiles & _).
  - vm_compute. reflexivity.
  - vm_compute. reflexivity.
  - vm_compute. reflexivity.
  - reflexivity.
  - reflexivity.
  - split; [exact Hraise | exact Hfiles].
Defined.

Lemma eval_propagates_other_metric_errors_witness :
  Trainer_eval Toy.model_dir 0 "Forest of 100" (Strict.trainer_text, Strict.world0)
  = (Raise TypeError,
     after_eval (L := Strict.library) Toy.model_dir Strict.trainer_text Strict.world0 0 "Forest of 100"
       (100, true) [1%float]).
Proof.
  refine (proj1 (eval_propagates_other_metric_errors (L := Strict.library) Toy.model_dir
                   Strict.trainer_text Strict.world0 0%nat "Forest of 100" (100, false)
                   Strict.X_train_rows Strict.X_valid_rows (100, true) [1%float]
                   TypeError _ _ _ _ _ _ _)).
  - vm_compute. reflexivity.
  - vm_compute. reflexivity.
  - vm_compute. reflexivity.
  - reflexivity.
  - reflexivity.
  - reflexivity.
  - discriminate.
Defined.

Lemma benchmark_stops_at_failing_fit_witness :
  fst (Trainer_benchmark Toy.model_dir "pred.csv" (Strict.trainer, Strict.world0))
  = Raise ValueError
  /\ frames (snd (snd (Trainer_benchmark Toy.model_dir "pred.csv"
                         (Strict.trainer, Strict.world0))))
     = frames Strict.world0
  /\ files (snd (snd (Trainer_benchmark Toy.model_dir "pred.csv"
                        (Strict.trainer, Strict.world0)))) !! "pred.csv" = None.
Proof.
  destruct (benchmark_stops_at_failing_fit (L := Strict.library) Toy.model_dir
              Strict.trainer Strict.world0 Strict.X_train_rows Strict.X_valid_rows
              [Strict.good] "Forest of 0" 1%nat [] (0, false) ValueError "pred.csv")
    as (Hraise & Hframes & Hfiles & _).
  - vm_compute. reflexivity.
  - vm_compute. reflexivity.
  - reflexivity.
  - apply NoDup_singleton.
  - apply not_elem_of_cons. split; [discriminate|apply not_elem_of_nil].
  - apply Forall_cons_2; [|apply Forall_nil_2].
    split; [exists ((100, false) : @regressor Strict.library); split; vm_compute; reflexivity
           |split; vm_compute; reflexivity].
  - vm_compute. reflexivity.
  - reflexivity.
  - split; [exact Hraise|]. split; [exact Hframes|].
    rewrite Hfiles. vm_compute. reflexivity.
Defined.

Lemma benchmark_fits_the_candidates_only_witness :
  estimators (snd (snd (Trainer_benchmark Toy.model_dir "pred.csv"
                          (Toy.trainer, Toy.world1)))) !! 3%nat = Some (2%float, true)
  /\ estimators (snd (snd (Trainer_benchmark Toy.model_dir "pred.csv"
                             (Toy.trainer, Toy.world1)))) !! 0%nat
     = estimators Toy.world1 !! 0%nat.
Proof.
  destruct (benchmark_fits_the_candidates_only Toy.model_dir
              Toy.trainer Toy.world1 Toy.X_train_rows Toy.X_valid_rows Toy.outs
              "pred.csv" toy_ready)
    as (Hfitted & Hother & _).
  split.
  - apply (Hfitted Toy.rf). apply list_elem_of_further, list_elem_of_here.
  - apply Hother. apply (bool_decide_unpack _). vm_compute. exact I.
Defined.

Lemma benchmark_output_lines_witness :
  stdout (snd (snd (Trainer_benchmark Toy.model_dir "pred.csv" (Toy.trainer, Toy.world1))))
  = stdout Toy.world1
    ++ ["dumped trained predictor Boosted Regression Tree to file models/boosted_regression_tree100.pkl";
        "dumped trained predictor Random Forest to file models/random_forest100.pkl";
        "dumped trained predictor XGBoost to file models/xgboost100.pkl";
        "dumped predictions to file pred.csv"].
Proof.
  exact (benchmark_output_lines Toy.model_dir
           Toy.trainer Toy.world1 Toy.X_train_rows Toy.X_valid_rows Toy.outs
           "pred.csv" toy_ready).
Defined.

Lemma init_missing_column_raises_key_error_witness :
  fst (Trainer_init Toy.train Toy.ratio (DataPrep.mk ["LotArea"; "GarageArea"]) None 100
         Toy.world0) = Raise KeyError.
Proof.
  rewrite (init_missing_column_raises_key_error Toy.train Toy.ratio
             (DataPrep.mk ["LotArea"; "GarageArea"]) None 100 Toy.world0 "GarageArea").
  - reflexivity.
  - apply list_elem_of_further, list_elem_of_here.
  - reflexivity.
Defined.

Lemma init_builds_new_candidates_witness :
  exists ridge lasso gb rf xgb,
    models Toy.trainer
    = [("Boosted Regression Tree", gb); ("Random Forest", rf); ("XGBoost", xgb)]
    /\ NoDup [ridge; lasso; gb; rf; xgb]
    /\ estimators Toy.world1 !! xgb = Some (3%float, false).
Proof.
  destruct (init_builds_new_candidates Toy.train Toy.ratio Toy.dp None 100 Toy.world0
              Toy.trainer Toy.world1 toy_init)
    as (ridge & lasso & gb & rf & xgb & Hmodels & Hnd & _ & _ & _ & _ & _ & Hxgb & _).
  exists ridge, lasso, gb, rf, xgb.
  split; [exact Hmodels|]. split; [exact Hnd|exact Hxgb].
Defined.

Lemma init_leaves_existing_tables_witness :
  frames Toy.world2 !! X_valid Toy.trainer150 = None
  /\ frames Toy.world3 !! X_valid Toy.trainer = frames Toy.world2 !! X_valid Toy.trainer
  /\ files Toy.world3 = files Toy.world2.
Proof.
  destruct (init_leaves_existing_tables Toy.train Toy.ratio Toy.dp None 150 Toy.world2
              Toy.trainer150 Toy.world3 toy_init150)
    as (_ & Hnew & _ & Hold & Hfiles & _).
  split; [exact Hnew|]. split; [|exact Hfiles].
  apply Hold; discriminate.
Defined.

Lemma retrieve_predictions_before_eval_raises_witness :
  fst (Trainer_retrieve_predictions (Toy.trainer, Toy.world1)) = Raise KeyError
  /\ frames (snd (snd (Trainer_retrieve_predictions (Toy.trainer, Toy.world1)))) !! 1%nat
     = Some (mkDataFrame [0] [("LotArea", [Num 8450]); ("SalePrice", [Num 208500])]).
Proof.
  rewrite (retrieve_predictions_before_eval_raises Toy.trainer Toy.world1
             Toy.X_valid_rows "Boosted Regression Tree" 2%nat
             [("Random Forest", 3%nat); ("XGBoost", 4%nat)]).
  - split; [reflexivity|]. simpl. apply lookup_insert_eq.
  - vm_compute. reflexivity.
  - reflexivity.
  - reflexivity.
  - reflexivity.
Defined.

Lemma retrieve_predictions_twice_is_once_witness :
  Trainer_retrieve_predictions
    (snd (Trainer_retrieve_predictions
            (snd (Trainer_benchmark Toy.model_dir "pred.csv" (Toy.trainer, Toy.world1)))))
  = Trainer_retrieve_predictions
      (snd (Trainer_benchmark Toy.model_dir "pred.csv" (Toy.trainer, Toy.world1))).
Proof.
  pose (s := snd (Trainer_benchmark Toy.model_dir "pred.csv" (Toy.trainer, Toy.world1))).
  assert (Hs : s = (fst s, snd s)) by (by destruct s).
  change (Trainer_retrieve_predictions (snd (Trainer_retrieve_predictions s))
          = Trainer_retrieve_predictions s).
  rewrite Hs.
  refine (proj2 (retrieve_predictions_twice_is_once (fst s) (snd s)
                   (prediction_table Toy.trainer Toy.X_valid_rows Toy.outs) Toy.outs
                   _ _ _ _ _ _ _)).
  - vm_compute. reflexivity.
  - vm_compute. reflexivity.
  - vm_compute. reflexivity.
  - apply Forall_cons_2; [exact I | apply Forall_nil_2].
  - vm_compute. reflexivity.
  - unfold Toy.outs. toy_each ltac:(split; vm_compute; reflexivity).
  - apply (bool_decide_unpack _). vm_compute. exact I.
Defined.

Lemma evaluation_after_benchmark_uses_the_augmented_table_witness :
  column "SalePrice" (prediction_table Toy.trainer Toy.X_valid_rows Toy.outs)
  = Some [Num 208500]
  /\ fst (Trainer_eval Toy.model_dir 3 "Random Forest"
            (snd (Trainer_benchmark Toy.model_dir "pred.csv" (Toy.trainer, Toy.world1))))
     = Ok 0.25%float.
Proof.
  destruct (evaluation_after_benchmark_uses_the_augmented_table Toy.model_dir
              Toy.trainer Toy.world1 Toy.X_train_rows Toy.X_valid_rows Toy.outs
              "pred.csv" Toy.rf (2%float, true) toy_ready)
    as (_ & Htarget & Heval).
  - discriminate.
  - apply list_elem_of_further, list_elem_of_here.
  - reflexivity.
  - split; [exact Htarget | exact Heval].
Defined.

Lemma rows_without_sale_price_are_left_out_witness :
  column "SalePrice"
    (getitem_mask
       (mkDataFrame [0; 1; 2]
          [("Id", [Int 1; Int 2; Int 3]);
           ("SalePrice", [Num 208500; Num nan; Num 223500])])
       (map notnull [Num 208500; Num nan; Num 223500]))
  = Some [Num 208500; Num 223500]
  /\ column "Id"
       (getitem_mask
          (mkDataFrame [0; 1; 2]
             [("Id", [Int 1; Int 2; Int 3]);
              ("SalePrice", [Num 208500; Num nan; Num 223500])])
          (map notnull [Num 208500; Num nan; Num 223500]))
     = Some [Int 1; Int 3].
Proof.
  destruct (rows_without_sale_price_are_left_out
              (mkDataFrame [0; 1; 2]
                 [("Id", [Int 1; Int 2; Int 3]);
                  ("SalePrice", [Num 208500; Num nan; Num 223500])])
              [Num 208500; Num nan; Num 223500] eq_refl eq_refl)
    as (Htarget & _ & _ & _ & Hcolumns).
  split; [exact Htarget|].
  exact (Hcolumns "Id" [Int 1; Int 2; Int 3] eq_refl).
Defined.

Lemma toy_passes :
  passes Toy.model_dir Toy.res_dir Toy.train Toy.dp [100; 150] Toy.world0
    [(100, Toy.outs); (150, Toy.outs150)]
    (snd (snd (Trainer_benchmark Toy.model_dir
                 (os_path_join Toy.res_dir (str_int 150 +:+ "_est_validation.csv"))
                 (Toy.trainer150, Toy.world3)))).
Proof.
  eapply passes_cons; [exact toy_init | exact toy_ready |].
  eapply passes_cons; [exact toy_init150 | exact toy_ready150 |].
  apply passes_nil.
Qed.

Lemma main_loop_stacks_the_error_tables_witness :
  exists metrics,
    fst (main_loop Toy.model_dir Toy.res_dir Toy.train Toy.dp [100; 150]
           (mkDataFrame [] []) Toy.world0) = Ok metrics
    /\ rows metrics
       = [[Str "Boosted Regression Tree"; Num nan; Int 100];
          [Str "Random Forest"; Num 0.25; Int 100];
          [Str "XGBoost"; Num 0.25; Int 100];
          [Str "Boosted Regression Tree"; Num nan; Int 150];
          [Str "Random Forest"; Num 0.25; Int 150];
          [Str "XGBoost"; Num 0.25; Int 150]]
    /\ length (rows metrics) = 6%nat.
Proof.
  destruct (main_loop_stacks_the_error_tables Toy.model_dir Toy.res_dir
              Toy.train Toy.dp [100; 150] Toy.world0 _ _ toy_passes)
    as (metrics & Hrun & Hrows & _ & _ & Hlen).
  exists metrics. rewrite Hrun. split; [reflexivity|]. split; [exact Hrows|exact Hlen].
Defined.
